(** * The benchmark comparison scripts of blvm-commons

    A shallow embedding of the three Python scripts that drive, normalise
    and compare the benchmarks:

    - [scripts/compare_benchmarks.py]   ([Module Compare])
    - [scripts/export_benchmarks.py]    ([Module Exporter])
    - [scripts/benchmark_bitcoin_core.py] ([Module CoreBench])

    Python values are an inductive type; a Python exception is the [Raise]
    branch of [result]; the Reference System, the file system and the clock
    are an explicit world that every effectful function threads.

    Numbers: Python's [int] and [float] are both embedded as exact rationals
    [Q], kept in lowest terms.  Rounding, infinities and NaN of binary64 are
    outside this model. *)

From Stdlib Require Import String Ascii List ZArith QArith Bool Lia.
Import ListNotations.
Open Scope string_scope.
Open Scope Q_scope.

(* ================================================================== *)
(** ** Python values and exceptions *)
(* ================================================================== *)

Module Py.

(** The exceptions the scripts can meet. *)
Inductive exn : Type :=
| TypeError
| KeyError
| IndexError
| AttributeError
| ZeroDivisionError
| OSError
| JSONDecodeError.

Inductive result (A : Type) : Type :=
| Ok (a : A)
| Raise (e : exn).
Arguments Ok {A} a.
Arguments Raise {A} e.

Definition bind {A B} (c : result A) (k : A -> result B) : result B :=
  match c with
  | Ok a => k a
  | Raise e => Raise e
  end.

Declare Scope py_scope.
Delimit Scope py_scope with py.
Notation "x <- c ;; k" := (bind c (fun x => k))
  (at level 100, c at next level, right associativity) : py_scope.

#[local] Set Warnings "-register-all".

(** What [json.load] can produce, which is also all the scripts build.
    A [dict] keeps its insertion order; its keys are strings. *)
Inductive pyval : Type :=
| PNone
| PBool (b : bool)
| PNum (q : Q)
| PStr (s : string)
| PList (l : list pyval)
| PDict (d : list (string * pyval)).

Definition pydict : Type := list (string * pyval).

(** [d.get(k)] at the level of the association list. *)
Fixpoint dict_get (k : string) (d : pydict) : option pyval :=
  match d with
  | [] => None
  | (k', v) :: d' => if String.eqb k k' then Some v else dict_get k d'
  end.

Definition dict_has (k : string) (d : pydict) : bool :=
  match dict_get k d with Some _ => true | None => false end.

(** [d[k] = v]: an existing key keeps its place, a new one goes last. *)
Fixpoint dict_set (k : string) (v : pyval) (d : pydict) : pydict :=
  match d with
  | [] => [(k, v)]
  | (k', v') :: d' =>
      if String.eqb k k' then (k, v) :: d' else (k', v') :: dict_set k v d'
  end.

(** [bool] is a subclass of [int]: [True] counts as 1 in arithmetic. *)
Definition num_of (v : pyval) : option Q :=
  match v with
  | PNum q => Some q
  | PBool true => Some 1
  | PBool false => Some 0
  | _ => None
  end.

Definition is_str (s : string) (v : pyval) : bool :=
  match v with
  | PStr t => String.eqb s t
  | _ => false
  end.

(** [k in s] on two strings: [k] occurs somewhere in [s]. *)
Fixpoint occurs (k s : string) : bool :=
  String.prefix k s
  || match s with
     | EmptyString => false
     | String _ s' => occurs k s'
     end.

(** [k in v] for a string [k]: key of a dict, substring of a string,
    element of a list; anything else is not iterable. *)
Definition py_in (k : string) (v : pyval) : result bool :=
  match v with
  | PDict d => Ok (dict_has k d)
  | PStr s => Ok (occurs k s)
  | PList l => Ok (existsb (is_str k) l)
  | PNone | PBool _ | PNum _ => Raise TypeError
  end.

(** [v[k]] for a string [k]. *)
Definition py_index (v : pyval) (k : string) : result pyval :=
  match v with
  | PDict d =>
      match dict_get k d with
      | Some x => Ok x
      | None => Raise KeyError
      end
  | _ => Raise TypeError
  end.

(** [v.get(k, default)]; only a dict has the method. *)
Definition py_get (v : pyval) (k : string) (default : pyval) : result pyval :=
  match v with
  | PDict d =>
      match dict_get k d with
      | Some x => Ok x
      | None => Ok default
      end
  | _ => Raise AttributeError
  end.

Definition qdiv (a b : Q) : Q := Qred (a / b).

(** [a / b], Python's true division. *)
Definition py_truediv (a b : pyval) : result pyval :=
  match num_of a, num_of b with
  | Some x, Some y =>
      if Qeq_bool y 0 then Raise ZeroDivisionError else Ok (PNum (qdiv x y))
  | _, _ => Raise TypeError
  end.

Definition Qlt_bool (a b : Q) : bool := negb (Qle_bool b a).

(** [v > 0]; ordering against an int is defined for numbers only. *)
Definition py_gt0 (v : pyval) : result bool :=
  match num_of v with
  | Some x => Ok (Qlt_bool 0 x)
  | None => Raise TypeError
  end.

(** [a < b] where one side is known to be a number: the other side must
    be a number too.  (Python also orders two strings or two lists; the
    scripts only write [a < b] after [a > 0] has gone through, or against
    the literal [100].) *)
Definition py_lt (a b : pyval) : result bool :=
  match num_of a, num_of b with
  | Some x, Some y => Ok (Qlt_bool x y)
  | _, _ => Raise TypeError
  end.

(** Truth value of an object, as [if x:] and [not x] test it. *)
Definition truthy (v : pyval) : bool :=
  match v with
  | PNone => false
  | PBool b => b
  | PNum q => negb (Qeq_bool q 0)
  | PStr s => negb (String.eqb s "")
  | PList l => match l with [] => false | _ => true end
  | PDict d => match d with [] => false | _ => true end
  end.

Definition is_none (v : pyval) : bool :=
  match v with PNone => true | _ => false end.

(** [len(v)]. *)
Definition py_len (v : pyval) : result nat :=
  match v with
  | PStr s => Ok (String.length s)
  | PList l => Ok (List.length l)
  | PDict d => Ok (List.length d)
  | PNone | PBool _ | PNum _ => Raise TypeError
  end.

End Py.
Import Py.
Open Scope py_scope.

(* ================================================================== *)
(** ** scripts/compare_benchmarks.py *)
(* ================================================================== *)

Module Compare.

(** What a parser prints besides its result. *)
Inductive log_line : Type :=
| Warning (e : exn)   (* "WARNING: Failed to parse Criterion results ..." *)
| Traceback.          (* traceback.print_exc() *)

(** Body of the [for] loop of [parse_criterion_results] (lines 38-74):
    one [(benchmark_name, benchmark_data)] item against the [results]
    built so far. *)
Definition parse_entry (results : pydict) (benchmark_name : string)
    (benchmark_data : pyval) : result pydict :=
  has_mean <- py_in "mean" benchmark_data ;;
  if negb has_mean then Ok results else
  mean <- py_index benchmark_data "mean" ;;
  has_pe <- py_in "point_estimate" mean ;;
  if negb has_pe then Ok results else
  mean_ns <- py_index mean "point_estimate" ;;
  (* the [stats] literal, its values in source order *)
  mean_ms <- py_truediv mean_ns (PNum 1000000) ;;
  ci_l <- py_get mean "confidence_interval" (PDict []) ;;
  lower <- py_get ci_l "lower_bound" PNone ;;
  ci_u <- py_get mean "confidence_interval" (PDict []) ;;
  upper <- py_get ci_u "upper_bound" PNone ;;
  let stats : pydict :=
    [("mean_ns", mean_ns); ("mean_ms", mean_ms);
     ("lower_bound_ns", lower); ("upper_bound_ns", upper)] in
  (* min / max *)
  stats <-
    (has <- py_in "min" benchmark_data ;;
     if has then
       mn <- py_index benchmark_data "min" ;;
       mn_ms <- py_truediv mn (PNum 1000000) ;;
       Ok (dict_set "min_ms" mn_ms (dict_set "min_ns" mn stats))
     else Ok stats) ;;
  stats <-
    (has <- py_in "max" benchmark_data ;;
     if has then
       mx <- py_index benchmark_data "max" ;;
       mx_ms <- py_truediv mx (PNum 1000000) ;;
       Ok (dict_set "max_ms" mx_ms (dict_set "max_ns" mx stats))
     else Ok stats) ;;
  (* median *)
  stats <-
    (has <- py_in "median" benchmark_data ;;
     if has then
       median <- py_index benchmark_data "median" ;;
       has_mpe <- py_in "point_estimate" median ;;
       if has_mpe then
         med <- py_index median "point_estimate" ;;
         med_ms <- py_truediv med (PNum 1000000) ;;
         Ok (dict_set "median_ms" med_ms (dict_set "median_ns" med stats))
       else Ok stats
     else Ok stats) ;;
  (* throughput (ops/sec) *)
  positive <- py_gt0 mean_ns ;;
  stats <-
    (if positive then
       thr <- py_truediv (PNum 1000000000) mean_ns ;;
       Ok (dict_set "throughput_ops_per_sec" thr stats)
     else Ok stats) ;;
  (* sample count *)
  stats <-
    (has <- py_in "sample_count" benchmark_data ;;
     if has then
       n <- py_index benchmark_data "sample_count" ;;
       Ok (dict_set "samples" n stats)
     else Ok stats) ;;
  Ok (dict_set benchmark_name (PDict stats) results).

(** The [for] loop over [data.items()]. *)
Fixpoint parse_items (items : pydict) (results : pydict) : result pydict :=
  match items with
  | [] => Ok results
  | (benchmark_name, benchmark_data) :: rest =>
      results' <- parse_entry results benchmark_name benchmark_data ;;
      parse_items rest results'
  end.

(** [parse_criterion_results].  [file] is what [open] followed by
    [json.load] gives on the path: the decoded document, or the exception
    of an unreadable or malformed file.  The function returns the result
    set and what it printed. *)
Definition parse_criterion_results (file : result pyval)
  : pydict * list log_line :=
  match (data <- file ;;
         match data with
         | PDict items => parse_items items []
         | _ => Ok []
         end) with
  | Ok results => (results, [])
  | Raise e => ([], [Warning e; Traceback])
  end.

(** [a and b] on two tests: [b] is only looked at when [a] holds. *)
Definition and_then (a b : result bool) : result bool :=
  x <- a ;; if x then b else Ok false.

(** [stat.get("mean_ms", stat.get("mean_ns", 0) / 1_000_000)]: the default
    is an argument, so it is computed before the outer [get] looks. *)
Definition mean_ms_of (stat : pyval) : result pyval :=
  ns <- py_get stat "mean_ns" (PNum 0) ;;
  default <- py_truediv ns (PNum 1000000) ;;
  py_get stat "mean_ms" default.

(** ["benchmarks" in core and key in core["benchmarks"]]. *)
Definition core_has (core : pyval) (key : string) : result bool :=
  and_then (py_in "benchmarks" core)
           (b <- py_index core "benchmarks" ;; py_in key b).

(** The record written when System B's [mean_ms] was found (lines 133-142,
    150-160 and 176-185, which differ only in the note). *)
Definition both_record (btdcoded_stat core_stat : pyval) (note : pydict)
  : result pyval :=
  btdcoded_ms <- mean_ms_of btdcoded_stat ;;
  core_ms <- py_index core_stat "mean_ms" ;;
  positive <- py_gt0 btdcoded_ms ;;
  ratio <- (if positive then py_truediv core_ms btdcoded_ms
            else Ok (PNum 0)) ;;
  a_wins <- py_lt btdcoded_ms core_ms ;;
  throughput <- py_get btdcoded_stat "throughput_ops_per_sec" (PNum 0) ;;
  Ok (PDict ([("btdcoded_ms", btdcoded_ms);
              ("core_ms", core_ms);
              ("ratio", ratio);
              ("faster", PStr (if a_wins then "BTCDecoded" else "Bitcoin Core"));
              ("btdcoded_throughput", throughput)] ++ note)).

(** The record written without a counterpart (lines 187-193). *)
Definition alone_record (btdcoded_stat : pyval) : result pyval :=
  btdcoded_ms <- mean_ms_of btdcoded_stat ;;
  throughput <- py_get btdcoded_stat "throughput_ops_per_sec" (PNum 0) ;;
  Ok (PDict [("btdcoded_ms", btdcoded_ms);
             ("btdcoded_throughput", throughput);
             ("note", PStr "Core benchmark not available for comparison")]).

Definition hash_note : pydict :=
  [("note", PStr "Core measures cached getblockhash (database lookup), BTCDecoded measures actual SHA256 computation")].

(** ["consensus_proof" in btdcoded and key in btdcoded["consensus_proof"]]. *)
Definition btdcoded_has (btdcoded : pyval) (key : string) : result bool :=
  and_then (py_in "consensus_proof" btdcoded)
           (cp <- py_index btdcoded "consensus_proof" ;; py_in key cp).

(** Transaction validation and hash operations (lines 127-160): a record
    is written only under the three nested [if]s; there is no [else]. *)
Definition compare_one (btdcoded core : pyval)
    (btdcoded_key core_key out_key : string) (note : pydict)
    (comparison : pydict) : result pydict :=
  present <- btdcoded_has btdcoded btdcoded_key ;;
  if negb present then Ok comparison else
  cp <- py_index btdcoded "consensus_proof" ;;
  btdcoded_stat <- py_index cp btdcoded_key ;;
  found <- core_has core core_key ;;
  if negb found then Ok comparison else
  benchmarks <- py_index core "benchmarks" ;;
  core_stat <- py_index benchmarks core_key ;;
  has_mean <- py_in "mean_ms" core_stat ;;
  if negb has_mean then Ok comparison else
  record <- both_record btdcoded_stat core_stat note ;;
  Ok (dict_set out_key record comparison).

Definition block_benchmarks : list (string * string) :=
  [("connect_block", "connect_block");
   ("connect_block_multi_tx", "connect_block_multi_tx")].

(** One turn of the loop over [block_benchmarks] (lines 171-193); here the
    missing counterpart has an [else]. *)
Definition compare_block (btdcoded core : pyval)
    (btdcoded_key comparison_key : string) (comparison : pydict)
  : result pydict :=
  cp <- py_index btdcoded "consensus_proof" ;;
  present <- py_in btdcoded_key cp ;;
  if negb present then Ok comparison else
  btdcoded_block <- py_index cp btdcoded_key ;;
  found <- core_has core "block_validation" ;;
  if found then
    benchmarks <- py_index core "benchmarks" ;;
    core_block <- py_index benchmarks "block_validation" ;;
    has_mean <- py_in "mean_ms" core_block ;;
    if negb has_mean then Ok comparison else
    record <- both_record btdcoded_block core_block [] ;;
    Ok (dict_set ("block_validation_" ++ comparison_key) record comparison)
  else
    record <- alone_record btdcoded_block ;;
    Ok (dict_set ("block_validation_" ++ comparison_key) record comparison).

Fixpoint compare_blocks (btdcoded core : pyval)
    (keys : list (string * string)) (comparison : pydict) : result pydict :=
  match keys with
  | [] => Ok comparison
  | (btdcoded_key, comparison_key) :: rest =>
      comparison' <- compare_block btdcoded core btdcoded_key comparison_key
                       comparison ;;
      compare_blocks btdcoded core rest comparison'
  end.

(** [compare_common_metrics(btdcoded, core)]. *)
Definition compare_common_metrics (btdcoded core : pyval) : result pydict :=
  let comparison : pydict := [] in
  comparison <- compare_one btdcoded core "check_transaction"
                  "transaction_validation" "transaction_validation" []
                  comparison ;;
  comparison <- compare_one btdcoded core "sha256_1kb"
                  "hash_operations" "hash_operations" hash_note
                  comparison ;;
  has_cp <- py_in "consensus_proof" btdcoded ;;
  if has_cp then compare_blocks btdcoded core block_benchmarks comparison
  else Ok comparison.

End Compare.

(* ================================================================== *)
(** ** scripts/export_benchmarks.py *)
(* ================================================================== *)

Module Exporter.

(** Lines printed on stderr. *)
Inductive stderr_line : Type :=
| ParseError (e : exn)   (* "ERROR: Failed to parse Criterion results ..." *)
| NoResults.             (* "ERROR: No benchmark results found in ..." *)

(** Body of the [for] loop of this script's [parse_criterion_results]
    (lines 60-89).  Every key of [stats] is there from the start, the
    optional ones as [None]. *)
Definition read_entry (results : pydict) (benchmark_name : string)
    (benchmark_data : pyval) : result pydict :=
  has_mean <- py_in "mean" benchmark_data ;;
  if negb has_mean then Ok results else
  mean <- py_index benchmark_data "mean" ;;
  has_pe <- py_in "point_estimate" mean ;;
  if negb has_pe then Ok results else
  mean_ns <- py_index mean "point_estimate" ;;
  mean_ms <- py_truediv mean_ns (PNum 1000000) ;;
  let stats : pydict :=
    [("mean_ms", mean_ms); ("mean_ns", mean_ns);
     ("min_ms", PNone); ("max_ms", PNone);
     ("samples", PNone); ("throughput_ops_per_sec", PNone)] in
  stats <-
    (has <- py_in "min" benchmark_data ;;
     if has then
       mn <- py_index benchmark_data "min" ;;
       mn_ms <- py_truediv mn (PNum 1000000) ;;
       Ok (dict_set "min_ms" mn_ms stats)
     else Ok stats) ;;
  stats <-
    (has <- py_in "max" benchmark_data ;;
     if has then
       mx <- py_index benchmark_data "max" ;;
       mx_ms <- py_truediv mx (PNum 1000000) ;;
       Ok (dict_set "max_ms" mx_ms stats)
     else Ok stats) ;;
  stats <-
    (has <- py_in "sample_count" benchmark_data ;;
     if has then
       n <- py_index benchmark_data "sample_count" ;;
       Ok (dict_set "samples" n stats)
     else Ok stats) ;;
  positive <- py_gt0 mean_ns ;;
  stats <-
    (if positive then
       thr <- py_truediv (PNum 1000000000) mean_ns ;;
       Ok (dict_set "throughput_ops_per_sec" thr stats)
     else Ok stats) ;;
  Ok (dict_set benchmark_name (PDict stats) results).

Fixpoint read_items (items : pydict) (results : pydict) : result pydict :=
  match items with
  | [] => Ok results
  | (benchmark_name, benchmark_data) :: rest =>
      results' <- read_entry results benchmark_name benchmark_data ;;
      read_items rest results'
  end.

(** [parse_criterion_results]; [file] as in [Compare]. *)
Definition parse_criterion_results (file : result pyval)
  : pydict * list stderr_line :=
  match (data <- file ;;
         match data with
         | PDict items => read_items items []
         | _ => Ok []
         end) with
  | Ok results => (results, [])
  | Raise e => ([], [ParseError e])
  end.

Definition benchmark_mapping : list (string * string) :=
  [("check_transaction", "transaction_validation");
   ("check_transaction_complex", "transaction_validation_complex");
   ("sha256_1kb", "hash_operations_sha256");
   ("double_sha256_1kb", "hash_operations_double_sha256");
   ("connect_block", "block_validation");
   ("connect_block_multi_tx", "block_validation_multi_tx")].

(** [benchmark_mapping.get(name, name)]. *)
Fixpoint mapped_name (table : list (string * string)) (name : string)
  : string :=
  match table with
  | [] => name
  | (k, v) :: rest => if String.eqb name k then v else mapped_name rest name
  end.

(** [if result.get(key) is not None: core_format[out] = result[key]]. *)
Definition copy_if_set (result_ : pyval) (key : string)
    (core_format : pydict) : result pydict :=
  v <- py_get result_ key PNone ;;
  if is_none v then Ok core_format
  else
    x <- py_index result_ key ;;
    Ok (dict_set key x core_format).

(** The record of one benchmark (lines 135-152). *)
Definition core_format_of (btdcoded_name : string) (result_ : pyval)
  : result pydict :=
  mean_ms <- py_index result_ "mean_ms" ;;
  let core_format : pydict := [("mean_ms", mean_ms)] in
  core_format <- copy_if_set result_ "min_ms" core_format ;;
  core_format <- copy_if_set result_ "max_ms" core_format ;;
  core_format <- copy_if_set result_ "samples" core_format ;;
  core_format <- copy_if_set result_ "throughput_ops_per_sec" core_format ;;
  Ok (dict_set "original_name" (PStr btdcoded_name) core_format).

(** The export loop over [results.items()] (lines 131-154). *)
Fixpoint export_items (results : pydict) (benchmarks : pydict)
  : result pydict :=
  match results with
  | [] => Ok benchmarks
  | (btdcoded_name, result_) :: rest =>
      let core_name := mapped_name benchmark_mapping btdcoded_name in
      core_format <- core_format_of btdcoded_name result_ ;;
      export_items rest (dict_set core_name (PDict core_format) benchmarks)
  end.



End Exporter.

(* ================================================================== *)
(** ** scripts/benchmark_bitcoin_core.py *)
(* ================================================================== *)

Module CoreBench.

(** *** The outside world *)

(** How [subprocess.run] on [bitcoin-cli] ends inside [rpc_call]. *)
Inductive run_outcome : Type :=
| Completed (returncode : Z) (stdout : string)
| TimeoutExpired            (* the 30 s of [timeout=30] went by *)
| SpawnError.               (* the client could not be executed: OSError *)

(** How [subprocess.run(cmd, check=True)] on [bitcoind -daemon] ends. *)
Inductive launch_outcome : Type :=
| Launched                  (* exit status 0: the daemon is in the background *)
| LaunchFailed              (* CalledProcessError *)
| LaunchOSError.            (* any other exception of [subprocess.run] *)

(** How [bitcoin-cli stop] (check=True, timeout=10) ends; it is only run
    once [_check_binary] has found the client, so it is taken to start. *)
Inductive stop_outcome : Type :=
| Stopped
| StopFailed                (* CalledProcessError *)
| StopTimeout.              (* TimeoutExpired *)

(** Everything the script reads from its surroundings.  Replies of the
    client and readings of the clock are indexed by their rank, so a reply
    may depend on all that was sent before it. *)
Record Env : Type := {
  bitcoind_ok : bool;               (* _check_binary(bitcoind_path) *)
  cli_ok : bool;                    (* _check_binary(bitcoin_cli_path) *)
  launch : launch_outcome;
  cli : nat -> run_outcome;         (* n-th client run of rpc_call *)
  stop : stop_outcome;
  perf_counter : nat -> Q;          (* n-th time.perf_counter() *)
  wall_time : Q;                    (* time.time() *)
  json_loads : string -> option pyval   (* None: JSONDecodeError *)
}.

Inductive event : Type :=
| EMkdirData
| ERmtree                   (* shutil.rmtree(regtest_dir) *)
| EMkdirRegtest
| ELaunch                   (* bitcoind was run *)
| ESleep
| ERpc (method : string)    (* bitcoin-cli <method> was run *)
| EStop.                    (* bitcoin-cli stop was run *)

(** What the script changes.  [trace] has the newest event first.
    Creating and removing directories is taken to succeed. *)
Record World : Type := {
  calls : nat;              (* client runs so far *)
  ticks : nat;              (* clock readings so far *)
  regtest_exists : bool;    (* regtest_dir.exists() *)
  daemon : bool;            (* a bitcoind of this run is in the background *)
  trace : list event
}.

Definition M (A : Type) : Type := World -> result A * World.

Definition ret {A} (a : A) : M A := fun w => (Ok a, w).

Definition raise {A} (e : exn) : M A := fun w => (Raise e, w).

Definition mbind {A B} (c : M A) (k : A -> M B) : M B :=
  fun w =>
    match c w with
    | (Ok a, w') => k a w'
    | (Raise e, w') => (Raise e, w')
    end.

(** A pure computation that may raise, inside [M]. *)
Definition lift {A} (r : result A) : M A := fun w => (r, w).

(** [try: body finally: fin].  [fin] runs on every way out of [body]; an
    exception of [fin] takes the place of what [body] gave. *)
Definition try_finally {A} (body : M A) (fin : M unit) : M A :=
  fun w =>
    let (r, w1) := body w in
    match fin w1 with
    | (Ok _, w2) => (r, w2)
    | (Raise e, w2) => (Raise e, w2)
    end.

Declare Scope m_scope.
Delimit Scope m_scope with m.
Notation "x <~ c ;; k" := (mbind c (fun x => k))
  (at level 100, c at next level, right associativity) : m_scope.
Notation "'run' c ;; k" := (mbind c (fun _ => k))
  (at level 100, c at next level, right associativity) : m_scope.
Open Scope m_scope.

Definition emit (e : event) : M unit :=
  fun w => (Ok tt, {| calls := calls w; ticks := ticks w;
                      regtest_exists := regtest_exists w;
                      daemon := daemon w; trace := e :: trace w |}).

Definition set_regtest (b : bool) : M unit :=
  fun w => (Ok tt, {| calls := calls w; ticks := ticks w;
                      regtest_exists := b;
                      daemon := daemon w; trace := trace w |}).

Definition set_daemon (b : bool) : M unit :=
  fun w => (Ok tt, {| calls := calls w; ticks := ticks w;
                      regtest_exists := regtest_exists w;
                      daemon := b; trace := trace w |}).

(** [if self.regtest_dir.exists(): shutil.rmtree(self.regtest_dir)]. *)
Definition rmtree_if_exists : M unit :=
  fun w =>
    if regtest_exists w
    then (run emit ERmtree ;; set_regtest false) w
    else (Ok tt, w).

(** *** Text *)

(** Whitespace of [str.strip()] among the ASCII characters. *)
Definition is_space (c : ascii) : bool :=
  let n := nat_of_ascii c in
  ((9 <=? n) && (n <=? 13) || (28 <=? n) && (n <=? 32))%nat.

Fixpoint lstrip (s : string) : string :=
  match s with
  | EmptyString => EmptyString
  | String c s' => if is_space c then lstrip s' else s
  end.

Fixpoint rstrip (s : string) : string :=
  match s with
  | EmptyString => EmptyString
  | String c s' =>
      match rstrip s' with
      | EmptyString => if is_space c then EmptyString else String c EmptyString
      | r => String c r
      end
  end.

Definition strip (s : string) : string := rstrip (lstrip s).

Section WithEnv.

Variable env : Env.

(** *** The remote call client *)

(** [rpc_call(method, *args)].  The arguments only go into the command
    line (through [str], which does not fail), so the embedding keeps the
    method alone; see [Env]. *)
Definition rpc_call (method : string) : M pyval :=
  fun w =>
    let w' := {| calls := S (calls w); ticks := ticks w;
                 regtest_exists := regtest_exists w;
                 daemon := daemon w;
                 trace := ERpc method :: trace w |} in
    match cli env (calls w) with
    | Completed returncode stdout =>
        if (returncode =? 0)%Z then
          match json_loads env stdout with
          | Some v => (Ok v, w')
          | None => (Ok (PStr (strip stdout)), w')
          end
        else (Ok PNone, w')
    | TimeoutExpired => (Ok PNone, w')
    | SpawnError => (Raise OSError, w')
    end.

(** [time.perf_counter()]. *)
Definition now : M Q :=
  fun w => (Ok (perf_counter env (ticks w)),
            {| calls := calls w; ticks := S (ticks w);
               regtest_exists := regtest_exists w;
               daemon := daemon w; trace := trace w |}).

(** *** The process controller *)

(** The polling loop of [start_bitcoind] (lines 67-73): [True] at the
    first answer, [False] after [n] silent seconds. *)
Fixpoint wait_for_rpc (n : nat) : M bool :=
  match n with
  | O => ret false
  | S n' =>
      run emit ESleep ;;
      r <~ rpc_call "getblockcount" ;;
      if negb (is_none r) then ret true else wait_for_rpc n'
  end.

(** [start_bitcoind()]. *)
Definition start_bitcoind : M bool :=
  if negb (bitcoind_ok env) then ret false else
  run emit EMkdirData ;;
  run rmtree_if_exists ;;
  run emit EMkdirRegtest ;;
  run set_regtest true ;;
  run emit ELaunch ;;
  match launch env with
  | Launched => run set_daemon true ;; wait_for_rpc 20
  | LaunchFailed => ret false
  | LaunchOSError => raise OSError
  end.

(** [stop_bitcoind()]. *)
Definition stop_bitcoind : M unit :=
  if negb (cli_ok env) then ret tt else
  run emit EStop ;;
  match stop env with
  | Stopped => set_daemon false
  | StopFailed | StopTimeout => ret tt   (* already stopped or taking time *)
  end.

(** *** The benchmark suite *)

Definition error_object (msg : string) : pyval := PDict [("error", PStr msg)].

(** [sum(times)]. *)
Definition py_sum (times : list Q) : Q := fold_left Qplus times 0.

(** [min(times)] and [max(times)] of a list with head [t]: the first of
    the smallest (largest) items. *)
Definition py_min (t : Q) (times : list Q) : Q :=
  fold_left (fun m x => if Qlt_bool x m then x else m) times t.

Definition py_max (t : Q) (times : list Q) : Q :=
  fold_left (fun m x => if Qlt_bool m x then x else m) times t.

(** The last lines of each workload (166-174, 190-198, 220-229):
    [if not times: return {"error": ...}], else the statistics record.
    [extra] is the note that only the hash workload adds. *)
Definition reduce_samples (times : list Q) (extra : pydict) : pyval :=
  match times with
  | [] => error_object "No valid measurements"
  | t :: rest =>
      PDict ([("mean_ms",
               PNum (qdiv (py_sum times) (inject_Z (Z.of_nat (length times)))));
              ("min_ms", PNum (py_min t rest));
              ("max_ms", PNum (py_max t rest));
              ("samples", PNum (inject_Z (Z.of_nat (length times))))]
             ++ extra)
  end.

(** [(end - start) * 1000]. *)
Definition elapsed_ms (start_ end_ : Q) : Q := Qred ((end_ - start_) * 1000).

(** [utxos[0]]. *)
Definition py_item0 (v : pyval) : result pyval :=
  match v with
  | PList (x :: _) => Ok x
  | PList [] => Raise IndexError
  | PStr (String c _) => Ok (PStr (String c EmptyString))
  | PStr EmptyString => Raise IndexError
  | PDict _ => Raise KeyError
  | PNone | PBool _ | PNum _ => Raise TypeError
  end.

(** A dict or a list cannot be the key of [{address: 0.001}]. *)
Definition hashable (v : pyval) : result unit :=
  match v with
  | PList _ | PDict _ => Raise TypeError
  | _ => Ok tt
  end.

(** The timing loop of the transaction workload (lines 159-164). *)
Fixpoint tx_loop (signed_tx : pyval) (n : nat) (times : list Q)
  : M (list Q) :=
  match n with
  | O => ret times
  | S n' =>
      start_ <~ now ;;
      hex <~ lift (py_index signed_tx "hex") ;;
      result_ <~ rpc_call "testmempoolaccept" ;;
      end_ <~ now ;;
      ok <~ lift (if truthy result_
                  then len <- py_len result_ ;; Ok (0 <? len)%nat
                  else Ok false) ;;
      tx_loop signed_tx n'
        (if ok then times ++ [elapsed_ms start_ end_] else times)
  end.

(** [benchmark_transaction_validation()]. *)
Definition benchmark_transaction_validation : M pyval :=
  to_address <~ rpc_call "getnewaddress" ;;
  result_ <~ rpc_call "generatetoaddress" ;;
  if negb (truthy result_)
  then ret (error_object "Failed to generate blocks") else
  utxos <~ rpc_call "listunspent" ;;
  none <~ lift (if negb (truthy utxos) then Ok true
                else len <- py_len utxos ;; Ok (len =? 0)%nat) ;;
  if (none : bool) then ret (error_object "No UTXOs available") else
  address <~ rpc_call "getnewaddress" ;;
  utxo <~ lift (py_item0 utxos) ;;
  txid <~ lift (py_index utxo "txid") ;;
  vout <~ lift (py_index utxo "vout") ;;
  run lift (hashable address) ;;
  raw_tx <~ rpc_call "createrawtransaction" ;;
  if negb (truthy raw_tx)
  then ret (error_object "Failed to create raw transaction") else
  signed_tx <~ rpc_call "signrawtransactionwithwallet" ;;
  unsigned <~ lift (if negb (truthy signed_tx) then Ok true
                    else has <- py_in "hex" signed_tx ;; Ok (negb has)) ;;
  if (unsigned : bool)
  then ret (error_object "Failed to sign transaction") else
  times <~ tx_loop signed_tx 50 [] ;;
  ret (reduce_samples times []).

(** The timing loop of the block workload (lines 183-188). *)
Fixpoint block_loop (n : nat) (times : list Q) : M (list Q) :=
  match n with
  | O => ret times
  | S n' =>
      start_ <~ now ;;
      result_ <~ rpc_call "generatetoaddress" ;;
      end_ <~ now ;;
      block_loop n'
        (if truthy result_ then times ++ [elapsed_ms start_ end_] else times)
  end.

(** [benchmark_block_validation()]. *)
Definition benchmark_block_validation : M pyval :=
  address <~ rpc_call "getnewaddress" ;;
  times <~ block_loop 10 [] ;;
  ret (reduce_samples times []).

(** The timing loop of the hash workload (lines 213-218). *)
Fixpoint hash_loop (n : nat) (times : list Q) : M (list Q) :=
  match n with
  | O => ret times
  | S n' =>
      start_ <~ now ;;
      hash_result <~ rpc_call "getblockhash" ;;
      end_ <~ now ;;
      hash_loop n'
        (if truthy hash_result then times ++ [elapsed_ms start_ end_]
         else times)
  end.

Definition proxy_note : pydict :=
  [("note", PStr "Using getblockhash as proxy for SHA256 operations")].

(** [benchmark_hash_operations()]. *)
Definition benchmark_hash_operations : M pyval :=
  current_height <~ rpc_call "getblockcount" ;;
  low <~ lift (if is_none current_height then Ok true
               else py_lt current_height (PNum 100)) ;;
  run (if (low : bool) then
         address <~ rpc_call "getnewaddress" ;;
         run rpc_call "generatetoaddress" ;;
         ret tt
       else ret tt) ;;
  times <~ hash_loop 100 [] ;;
  ret (reduce_samples times proxy_note).

(** The readiness loop of [run_all_benchmarks] (lines 245-250): [true]
    when the loop left by [break], [false] when it ran into its [else]. *)
Fixpoint ready_loop (n : nat) : M bool :=
  match n with
  | O => ret false
  | S n' =>
      r <~ rpc_call "getblockcount" ;;
      if negb (is_none r) then ret true
      else run emit ESleep ;; ready_loop n'
  end.

(** The body of the [try] of [run_all_benchmarks] (lines 244-255). *)
Definition measure_all (timestamp : Q) : M pyval :=
  ready <~ ready_loop 10 ;;
  if negb ready
  then ret (error_object "bitcoind not responding after start") else
  tx <~ benchmark_transaction_validation ;;
  block <~ benchmark_block_validation ;;
  hash <~ benchmark_hash_operations ;;
  ret (PDict [("timestamp", PNum timestamp);
              ("system", PStr "Bitcoin Core");
              ("benchmarks",
               PDict [("transaction_validation", tx);
                      ("block_validation", block);
                      ("hash_operations", hash)])]).

(** Its [finally] (lines 258-261). *)
Definition cleanup : M unit :=
  run stop_bitcoind ;; rmtree_if_exists.

(** [run_all_benchmarks()]. *)
Definition run_all_benchmarks : M pyval :=
  let timestamp := wall_time env in
  started <~ start_bitcoind ;;
  if negb started then ret (error_object "Failed to start bitcoind") else
  try_finally (measure_all timestamp) cleanup.

End WithEnv.

End CoreBench.

(* ================================================================== *)
(** ** What the claims say, as predicates *)
(* ================================================================== *)

Module Spec.




(** System A's statistics for the native name [key]. *)
Definition stat_a (btdcoded : pyval) (key : string) (stat : pyval) : Prop :=
  exists cp,
    py_index btdcoded "consensus_proof" = Ok cp /\ py_index cp key = Ok stat.

(** System B's record for the benchmark [key]. *)
Definition stat_b (core : pyval) (key : string) (stat : pyval) : Prop :=
  exists benchmarks,
    py_index core "benchmarks" = Ok benchmarks /\
    py_index benchmarks key = Ok stat.

(** The comparison record of lines 136-142 for System A's [a_stat], whose
    mean is the number [qa] held as [a_ms], against System B's mean [qb]
    held as [core_ms]. *)
Definition compared (a_stat a_ms core_ms : pyval) (qa qb : Q) (note : pydict)
    (record : pyval) : Prop :=
  exists throughput,
    py_get a_stat "throughput_ops_per_sec" (PNum 0) = Ok throughput /\
    record =
      PDict ([("btdcoded_ms", a_ms);
              ("core_ms", core_ms);
              ("ratio", PNum (if Qlt_bool 0 qa then qdiv qb qa else 0));
              ("faster", PStr (if Qlt_bool qa qb then "BTCDecoded"
                               else "Bitcoin Core"));
              ("btdcoded_throughput", throughput)] ++ note).

(** The record written for System A's [a_stat] when System B has no
    benchmark to compare with (lines 187-193). *)
Definition uncompared (a_stat : pyval) (record : pyval) : Prop :=
  exists a_ms throughput,
    Compare.mean_ms_of a_stat = Ok a_ms /\
    py_get a_stat "throughput_ops_per_sec" (PNum 0) = Ok throughput /\
    record =
      PDict [("btdcoded_ms", a_ms);
             ("btdcoded_throughput", throughput);
             ("note", PStr "Core benchmark not available for comparison")].

(** The operations the comparison engine models: System A's native name,
    System B's benchmark, and the key of the comparison record. *)
Definition modelled : list (string * string * string) :=
  [("check_transaction", "transaction_validation", "transaction_validation");
   ("sha256_1kb", "hash_operations", "hash_operations");
   ("connect_block", "block_validation", "block_validation_connect_block");
   ("connect_block_multi_tx", "block_validation",
    "block_validation_connect_block_multi_tx")].


(** A report entry without [mean.point_estimate]: an object that has no
    [mean], or whose [mean] is an object that has no [point_estimate]. *)
Definition lacks_point_estimate (data : pyval) : Prop :=
  exists d,
    data = PDict d /\
    (dict_get "mean" d = None \/
     exists m, dict_get "mean" d = Some (PDict m) /\
               dict_get "point_estimate" m = None).

(** A value that is not a container: [null], a boolean or a number. *)
Definition not_container (v : pyval) : Prop :=
  v = PNone \/ (exists b, v = PBool b) \/ (exists q, v = PNum q).

(** The statistics-report entry [data] has a mean point estimate, the
    number [q] (in nanoseconds), held under [mean.point_estimate] as the
    value [mean_ns]. *)
Definition point_estimate (data mean_ns : pyval) (q : Q) : Prop :=
  exists mean,
    py_index data "mean" = Ok mean /\
    py_index mean "point_estimate" = Ok mean_ns /\
    num_of mean_ns = Some q.

(** [stats] carries the mean of [q] nanoseconds and the throughput that
    goes with it: [1e9 / q] when [q > 0], and [absent] otherwise. *)
Definition throughput_rule (absent : option pyval) (mean_ns : pyval) (q : Q)
    (stats : pydict) : Prop :=
  dict_get "mean_ns" stats = Some mean_ns /\
  dict_get "mean_ms" stats = Some (PNum (qdiv q 1000000)) /\
  dict_get "throughput_ops_per_sec" stats =
    (if Qlt_bool 0 q then Some (PNum (qdiv 1000000000 q)) else absent).


(** The arithmetic mean of a list of samples. *)
Definition Qsum (l : list Q) : Q := fold_right Qplus 0 l.

Definition arithmetic_mean (l : list Q) : Q :=
  Qsum l / inject_Z (Z.of_nat (length l)).

Definition is_minimum (m : Q) (l : list Q) : Prop :=
  In m l /\ forall x, In x l -> m <= x.

Definition is_maximum (m : Q) (l : list Q) : Prop :=
  In m l /\ forall x, In x l -> x <= m.

(** An error object: a dict with the one key [error]. *)
Definition is_error_object (r : pyval) : Prop :=
  exists msg, r = CoreBench.error_object msg.

(** [record] is the statistics record of the samples [times]. *)
Definition statistics_of (times : list Q) (extra : pydict) (record : pyval)
  : Prop :=
  exists mean mn mx,
    record =
      PDict ([("mean_ms", PNum mean); ("min_ms", PNum mn);
              ("max_ms", PNum mx);
              ("samples", PNum (inject_Z (Z.of_nat (length times))))]
             ++ extra) /\
    mean == arithmetic_mean times /\
    is_minimum mn times /\ is_maximum mx times /\
    mn <= mean /\ mean <= mx.

Definition first_char (s : string) : option ascii :=
  match s with
  | EmptyString => None
  | String c _ => Some c
  end.



(** A client run that gives [rpc_call] no value: a timeout or a non-zero
    exit status. *)
Definition no_answer (o : CoreBench.run_outcome) : Prop :=
  o = CoreBench.TimeoutExpired \/
  exists returncode stdout,
    o = CoreBench.Completed returncode stdout /\ returncode <> 0%Z.

(** An event of the polling loop: a sleep or a client run. *)
Definition polling (e : CoreBench.event) : Prop :=
  e = CoreBench.ESleep \/ exists method, e = CoreBench.ERpc method.


End Spec.

(* ================================================================== *)
(** ** Sample inputs *)
(* ================================================================== *)

Module Examples.
Import CoreBench.

(** A statistics report with one complete entry and one entry whose
    [mean] has no [point_estimate]. *)
Definition good_entry : pyval :=
  PDict [("mean", PDict [("point_estimate", PNum 1500)])].

Definition bad_entry : pyval :=
  PDict [("mean", PDict [("confidence_interval", PDict [])])].

Definition partial_report : pyval :=
  PDict [("check_transaction", good_entry); ("sha256_1kb", bad_entry)].

(** A report in which one name maps to a number. *)
Definition ill_typed_report : pyval :=
  PDict [("check_transaction", good_entry); ("sha256_1kb", PNum 5)].


(** System A: one benchmark named [name] with a mean of [ms]. *)
Definition btdcoded_with (name : string) (ms : Q) : pyval :=
  PDict [("consensus_proof", PDict [(name, PDict [("mean_ms", PNum ms)])])].

(** System B: one benchmark named [name] with a mean of [ms]. *)
Definition core_with (name : string) (ms : Q) : pyval :=
  PDict [("system", PStr "Bitcoin Core");
         ("benchmarks", PDict [(name, PDict [("mean_ms", PNum ms)])])].

(** Text of the client, as it prints it: with a trailing newline. *)
Definition newline : string := String (ascii_of_nat 10) EmptyString.

Definition quote : string := String (ascii_of_nat 34) EmptyString.

Definition count_0 : string := "0" ++ newline.
Definition count_110 : string := "110" ++ newline.
Definition address_text : string := "bcrt1qexample" ++ newline.
Definition hash_text : string := "00ab34cd" ++ newline.
Definition blocks_json : string :=
  "[" ++ quote ++ "00ab34cd" ++ quote ++ "]" ++ newline.

(** [json.loads] on the texts above: the two counts are numbers, the list
    of block hashes is a list, an address or a bare hash is no JSON. *)
Definition loads (s : string) : option pyval :=
  if String.eqb s count_0 then Some (PNum 0)
  else if String.eqb s count_110 then Some (PNum 110)
  else if String.eqb s blocks_json then Some (PList [PStr "00ab34cd"])
  else None.

(** A clock that advances by one millisecond between two readings. *)
Definition ms_clock (n : nat) : Q := Z.of_nat n # 1000.

(** The daemon starts and answers, but mining for the transaction workload
    fails (the client exits with status 1 at its fourth run). *)
Definition no_mining : Env :=
  {| bitcoind_ok := true;
     cli_ok := true;
     launch := Launched;
     cli := fun n =>
       if (n <? 2)%nat then Completed 0 count_0          (* getblockcount *)
       else if (n =? 2)%nat then Completed 0 address_text
       else if (n =? 3)%nat then Completed 1 ""          (* generatetoaddress *)
       else if (n =? 4)%nat then Completed 0 address_text
       else if (n <? 15)%nat then Completed 0 blocks_json
       else if (n =? 15)%nat then Completed 0 count_110
       else Completed 0 hash_text;                       (* getblockhash *)
     stop := Stopped;
     perf_counter := ms_clock;
     wall_time := 1700000000;
     json_loads := loads |}.

(** The daemon is launched but the client never gets an answer: its runs
    end with status 1 or, every other time, in the timeout. *)
Definition silent : Env :=
  {| bitcoind_ok := true;
     cli_ok := true;
     launch := Launched;
     cli := fun n => if Nat.even n then Completed 1 "" else TimeoutExpired;
     stop := Stopped;
     perf_counter := ms_clock;
     wall_time := 1700000000;
     json_loads := loads |}.

(** The daemon answers, and [listunspent] answers with a number: the
    transaction workload raises on [len(utxos)]. *)
Definition odd_wallet : Env :=
  {| bitcoind_ok := true;
     cli_ok := true;
     launch := Launched;
     cli := fun n =>
       if (n =? 2)%nat then Completed 0 address_text
       else Completed 0 count_110;
     stop := Stopped;
     perf_counter := ms_clock;
     wall_time := 1700000000;
     json_loads := loads |}.

(** The script about to make its [n]-th client run. *)
Definition at_call (n : nat) : World :=
  {| calls := n; ticks := 0; regtest_exists := true; daemon := true;
     trace := [] |}.

(** Before the script has done anything. *)
Definition fresh : World :=
  {| calls := 0; ticks := 0; regtest_exists := false; daemon := false;
     trace := [] |}.

(** The worlds that [run_all_benchmarks] goes through under [no_mining]:
    after the start, after the readiness loop, after each workload. *)
Definition started : World := snd (start_bitcoind no_mining fresh).
Definition ready : World := snd (ready_loop no_mining 10 started).
Definition after_tx : World :=
  snd (benchmark_transaction_validation no_mining ready).
Definition after_block : World :=
  snd (benchmark_block_validation no_mining after_tx).
Definition after_hash : World :=
  snd (benchmark_hash_operations no_mining after_block).

End Examples.

(* ================================================================== *)
(** ** More of the scripts *)
(* ================================================================== *)

(** *** compare_benchmarks.py: the result directories *)

Module CompareDir.









End CompareDir.

(** *** benchmark_bitcoin_core.py: the command *)

Module CoreMain.
Import CoreBench.

(** [main()] after the arguments are read: the results that go to the
    output file and the exit status ([sys.exit(1)] when the results have a
    top-level [error], 0 otherwise). *)
Definition main (env : Env) : M (pyval * Z) :=
  results <~ run_all_benchmarks env ;;
  has_error <~ lift (py_in "error" results) ;;
  ret (results, if (has_error : bool) then 1%Z else 0%Z).

End CoreMain.

(** *** What the further properties say *)

Module More.

(** A report entry with a mean point estimate under its two keys. *)
Definition has_point_estimate (data : pyval) : Prop :=
  exists mean estimate,
    py_index data "mean" = Ok mean /\
    py_index mean "point_estimate" = Ok estimate.

(** The value of an optional key, [None] when the key is missing. *)
Definition or_none (v : option pyval) : pyval :=
  match v with Some x => x | None => PNone end.

(** A record of the comparison script's parser and a record of the export
    script's parser for the same name that carry the same numbers. *)
Definition same_stats (c e : string * pyval) : Prop :=
  fst c = fst e /\
  exists cd ed,
    snd c = PDict cd /\ snd e = PDict ed /\
    dict_get "mean_ms" ed = dict_get "mean_ms" cd /\
    dict_get "mean_ns" ed = dict_get "mean_ns" cd /\
    dict_get "min_ms" ed = Some (or_none (dict_get "min_ms" cd)) /\
    dict_get "max_ms" ed = Some (or_none (dict_get "max_ms" cd)) /\
    dict_get "samples" ed = Some (or_none (dict_get "samples" cd)) /\
    dict_get "throughput_ops_per_sec" ed
      = Some (or_none (dict_get "throughput_ops_per_sec" cd)).





(** What a workload returns: an error object, or the statistics of a
    non-empty list of samples. *)
Definition workload_record (extra : pydict) (r : pyval) : Prop :=
  Spec.is_error_object r \/
  exists times, times <> [] /\ Spec.statistics_of times extra r.

(** The three documents that [run_all_benchmarks] can return. *)
Definition benchmark_document (timestamp : Q) (r : pyval) : Prop :=
  r = CoreBench.error_object "Failed to start bitcoind" \/
  r = CoreBench.error_object "bitcoind not responding after start" \/
  exists tx block hash,
    r = PDict [("timestamp", PNum timestamp);
               ("system", PStr "Bitcoin Core");
               ("benchmarks",
                PDict [("transaction_validation", tx);
                       ("block_validation", block);
                       ("hash_operations", hash)])] /\
    workload_record [] tx /\ workload_record [] block /\
    workload_record CoreBench.proxy_note hash.

(** A clock that never runs backwards, as [time.perf_counter] is. *)
Definition monotonic (env : CoreBench.Env) : Prop :=
  forall n, CoreBench.perf_counter env n <= CoreBench.perf_counter env (S n).

(** The samples [more] that a timing loop of [n] turns added. *)
Definition collected (env : CoreBench.Env) (n : nat) (times out : list Q)
  : Prop :=
  exists more,
    out = (times ++ more)%list /\ (length more <= n)%nat /\
    (monotonic env -> Forall (fun t => 0 <= t) more).

(** A workload result whose [samples], if it is no error object, counts
    between 1 and [n] measurements. *)
Definition counted_record (n : nat) (r : pyval) : Prop :=
  Spec.is_error_object r \/
  exists d k,
    r = PDict d /\
    dict_get "samples" d = Some (PNum (inject_Z (Z.of_nat k))) /\
    (1 <= k <= n)%nat.


(** [f] runs the client through [rpc_call] at most [n] times, whether it
    returns or raises. *)
Definition at_most {A} (n : nat) (f : CoreBench.M A) : Prop :=
  forall w,
    (CoreBench.calls w <= CoreBench.calls (snd (f w))
     <= CoreBench.calls w + n)%nat.

(** [f] only polls: it adds client runs and sleeps to the trace and
    leaves the directory and the daemon as they are. *)
Definition only_polls {A} (f : CoreBench.M A) : Prop :=
  forall w,
    exists polls,
      CoreBench.trace (snd (f w)) = (polls ++ CoreBench.trace w)%list /\
      Forall Spec.polling polls /\
      CoreBench.regtest_exists (snd (f w)) = CoreBench.regtest_exists w /\
      CoreBench.daemon (snd (f w)) = CoreBench.daemon w.

(** The two block-validation benchmarks of System A. *)
Definition block_variants : list string :=
  ["connect_block"; "connect_block_multi_tx"].

(** The key under which the export writes the benchmark [name]. *)
Definition renamed (name : string) : string :=
  Exporter.mapped_name Exporter.benchmark_mapping name.

(** The document of [run_all_benchmarks] in the [no_mining] example. *)
Definition no_mining_document : pyval :=
  PDict
    [("timestamp", PNum 1700000000);
     ("system", PStr "Bitcoin Core");
     ("benchmarks",
      PDict
        [("transaction_validation",
          PDict [("error", PStr "Failed to generate blocks")]);
         ("block_validation",
          PDict [("mean_ms", PNum 1); ("min_ms", PNum 1);
                 ("max_ms", PNum 1); ("samples", PNum 10)]);
         ("hash_operations",
          PDict [("mean_ms", PNum 1); ("min_ms", PNum 1);
                 ("max_ms", PNum 1); ("samples", PNum 100);
                 ("note",
                  PStr "Using getblockhash as proxy for SHA256 operations")])])].

End More.

(* ================================================================== *)
(** ** Facts about dicts and numbers *)
(* ================================================================== *)

Lemma dict_get_set_same (k : string) (v : pyval) (d : pydict) :
  dict_get k (dict_set k v d) = Some v.
Proof.
  induction d as [|[k' v'] d IH]; simpl.
  - now rewrite String.eqb_refl.
  - destruct (String.eqb k k') eqn:E; simpl.
    + now rewrite String.eqb_refl.
    + now rewrite E.
Qed.

Lemma dict_get_set_other (k k' : string) (v : pyval) (d : pydict) :
  k <> k' -> dict_get k (dict_set k' v d) = dict_get k d.
Proof.
  intros N. induction d as [|[k0 v0] d IH]; simpl.
  - destruct (String.eqb_spec k k'); [contradiction | reflexivity].
  - destruct (String.eqb_spec k' k0) as [->|N0]; simpl.
    + destruct (String.eqb_spec k k0); [contradiction | reflexivity].
    + destruct (String.eqb_spec k k0); [reflexivity | exact IH].
Qed.

Lemma Qlt_bool_iff (a b : Q) : Qlt_bool a b = true <-> a < b.
Proof.
  unfold Qlt_bool. rewrite negb_true_iff.
  split.
  - intros H. apply Qnot_le_lt. intros L.
    apply Qle_bool_iff in L. congruence.
  - intros H. destruct (Qle_bool b a) eqn:E; [|reflexivity].
    apply Qle_bool_iff in E. exfalso. exact (Qlt_not_le _ _ H E).
Qed.

Lemma Qlt_bool_false_iff (a b : Q) : Qlt_bool a b = false <-> b <= a.
Proof.
  unfold Qlt_bool. rewrite negb_false_iff. apply Qle_bool_iff.
Qed.

Lemma qdiv_correct (a b : Q) : qdiv a b == a / b.
Proof. apply Qred_correct. Qed.

Lemma bind_assoc {A B C} (c : result A) (f : A -> result B)
    (g : B -> result C) :
  bind (bind c f) g = bind c (fun x => bind (f x) g).
Proof. now destruct c. Qed.

(** Take a computation known to succeed apart, down to its last value. *)
Ltac peel_all H :=
  repeat match type of H with
  | bind (bind _ _) _ = _ => rewrite bind_assoc in H
  | bind (Ok _) _ = _ => cbn [bind] in H
  | bind (Raise _) _ = _ => discriminate H
  | bind (if ?b then _ else _) _ = _ => destruct b eqn:?
  | (if ?b then _ else _) = _ => destruct b eqn:?
  | bind ?c _ = _ =>
      let E := fresh "E" in
      destruct c eqn:E; cbn [bind] in H; [|discriminate H]
  end.

Lemma dict_get_set_inv (k k' : string) (v x : pyval) (d : pydict) :
  dict_get k (dict_set k' v d) = Some x ->
  (k = k' /\ x = v) \/ (k <> k' /\ dict_get k d = Some x).
Proof.
  destruct (String.eqb_spec k k') as [->|N].
  - rewrite dict_get_set_same. intros [= <-]. now left.
  - rewrite dict_get_set_other by assumption. now right.
Qed.

Lemma py_truediv_inv (a b r : pyval) :
  py_truediv a b = Ok r ->
  exists x y, num_of a = Some x /\ num_of b = Some y /\ ~ y == 0 /\
              r = PNum (qdiv x y).
Proof.
  unfold py_truediv.
  destruct (num_of a) as [x|]; [|discriminate].
  destruct (num_of b) as [y|]; [|discriminate].
  destruct (Qeq_bool y 0) eqn:E; [discriminate|].
  intros [= <-]. exists x, y. repeat split; auto.
  intros Z. apply Qeq_bool_iff in Z. congruence.
Qed.

Lemma py_gt0_inv (v : pyval) (b : bool) :
  py_gt0 v = Ok b -> exists q, num_of v = Some q /\ b = Qlt_bool 0 q.
Proof.
  unfold py_gt0. destruct (num_of v) as [q|]; [|discriminate].
  intros [= <-]. now exists q.
Qed.


(** Turn the arithmetic steps of a successful run into equations. *)
Ltac invert_num :=
  repeat match goal with
  | E : py_truediv _ _ = Ok _ |- _ =>
      apply py_truediv_inv in E; destruct E as (? & ? & ? & ? & ? & ?)
  | E : py_gt0 _ = Ok _ |- _ =>
      apply py_gt0_inv in E; destruct E as (? & ? & ?)
  | E : num_of (PNum _) = Some _ |- _ => cbn [num_of] in E; injection E as E
  | E1 : num_of ?v = Some _, E2 : num_of ?v = Some _ |- _ =>
      rewrite E1 in E2; injection E2 as E2
  end; subst.

Module CompareFacts.
Import Compare Spec.

Lemma cmp_parse_entry_inv (results : pydict) (name : string) (data : pyval)
    (results' : pydict) :
  parse_entry results name data = Ok results' ->
  results' = results \/
  exists stats mean_ns q,
    results' = dict_set name (PDict stats) results /\
    point_estimate data mean_ns q /\
    throughput_rule None mean_ns q stats.
Proof.
  unfold parse_entry. intros H.
  peel_all H; try (left; congruence).
  all: right; injection H as <-; invert_num.
  all: eexists _, _, _; split; [reflexivity|]; split;
    [eexists; eauto | unfold throughput_rule].
  all: match goal with T : _ = Qlt_bool 0 _ |- _ => rewrite <- T end.
  all: repeat split; reflexivity.
Qed.





Lemma cmp_parse_entry_not_container (results : pydict) (name : string)
    (v : pyval) :
  not_container v -> parse_entry results name v = Raise TypeError.
Proof.
  intros [->|[[b ->]|[q ->]]]; reflexivity.
Qed.

Lemma cmp_parse_items_not_container (items results : pydict) (name : string)
    (v : pyval) :
  In (name, v) items -> not_container v ->
  exists e, parse_items items results = Raise e.
Proof.
  intros Hin N. revert results.
  induction items as [|[n d] items IH]; intros results; [destruct Hin|].
  cbn [parse_items].
  destruct Hin as [[= -> ->]|Hin].
  - rewrite (cmp_parse_entry_not_container _ _ _ N). now exists TypeError.
  - destruct (parse_entry results n d) as [r|e]; cbn [bind];
      [apply (IH Hin) | now exists e].
Qed.

End CompareFacts.

Module ExporterFacts.
Import Exporter Spec.

Lemma exp_parse_entry_inv (results : pydict) (name : string) (data : pyval)
    (results' : pydict) :
  read_entry results name data = Ok results' ->
  results' = results \/
  exists stats mean_ns q,
    results' = dict_set name (PDict stats) results /\
    point_estimate data mean_ns q /\
    throughput_rule (Some PNone) mean_ns q stats.
Proof.
  unfold read_entry. intros H.
  peel_all H; try (left; congruence).
  all: right; injection H as <-; invert_num.
  all: eexists _, _, _; split; [reflexivity|]; split;
    [eexists; eauto | unfold throughput_rule].
  all: match goal with T : _ = Qlt_bool 0 _ |- _ => rewrite <- T end.
  all: repeat split; reflexivity.
Qed.




Lemma exp_parse_entry_skips (results : pydict) (name : string) (data : pyval) :
  lacks_point_estimate data -> read_entry results name data = Ok results.
Proof.
  intros (d & -> & [N|(m & Hm & Hp)]); unfold read_entry;
    cbn [py_in py_index bind]; unfold dict_has.
  - now rewrite N.
  - rewrite Hm. cbn [negb bind py_in]. unfold dict_has. now rewrite Hp.
Qed.

Lemma exp_parse_items_skip (before after : pydict) (name : string)
    (bad : pyval) (results : pydict) :
  lacks_point_estimate bad ->
  read_items (before ++ (name, bad) :: after)%list results
    = read_items (before ++ after)%list results.
Proof.
  intros L. revert results.
  induction before as [|[n d] before IH]; intros results.
  - cbn [app read_items]. now rewrite (exp_parse_entry_skips _ _ _ L).
  - cbn [app read_items].
    destruct (read_entry results n d); cbn [bind]; [apply IH|reflexivity].
Qed.

Lemma exp_parse_entry_not_container (results : pydict) (name : string)
    (v : pyval) :
  not_container v -> read_entry results name v = Raise TypeError.
Proof.
  intros [->|[[b ->]|[q ->]]]; reflexivity.
Qed.

Lemma exp_parse_items_not_container (items results : pydict) (name : string)
    (v : pyval) :
  In (name, v) items -> not_container v ->
  exists e, read_items items results = Raise e.
Proof.
  intros Hin N. revert results.
  induction items as [|[n d] items IH]; intros results; [destruct Hin|].
  cbn [read_items].
  destruct Hin as [[= -> ->]|Hin].
  - rewrite (exp_parse_entry_not_container _ _ _ N). now exists TypeError.
  - destruct (read_entry results n d) as [r|e]; cbn [bind];
      [apply (IH Hin) | now exists e].
Qed.





End ExporterFacts.

Module CompareMetricsFacts.
Import Compare Spec.

Lemma py_lt_inv (a b : pyval) (r : bool) :
  py_lt a b = Ok r ->
  exists x y, num_of a = Some x /\ num_of b = Some y /\ r = Qlt_bool x y.
Proof.
  unfold py_lt.
  destruct (num_of a) as [x|]; [|discriminate].
  destruct (num_of b) as [y|]; [|discriminate].
  intros [= <-]. now exists x, y.
Qed.

Lemma both_record_inv (a_stat core_stat : pyval) (note : pydict)
    (record : pyval) :
  both_record a_stat core_stat note = Ok record ->
  exists a_ms core_ms qa qb,
    mean_ms_of a_stat = Ok a_ms /\
    py_index core_stat "mean_ms" = Ok core_ms /\
    num_of a_ms = Some qa /\ num_of core_ms = Some qb /\
    compared a_stat a_ms core_ms qa qb note record.
Proof.
  unfold both_record. intros H.
  peel_all H.
  all: injection H as <-.
  all: repeat match goal with
       | E : py_lt _ _ = Ok _ |- _ =>
           apply py_lt_inv in E; destruct E as (? & ? & ? & ? & ?)
       end; invert_num.
  all: eexists _, _, _, _; repeat (split; [eassumption || reflexivity|]).
  all: eexists; split; [eassumption|].
  all: repeat match goal with T : _ = Qlt_bool _ _ |- _ =>
         rewrite <- T; clear T end.
  all: reflexivity.
Qed.

Lemma py_in_index (k : string) (v : pyval) (x : pyval) :
  py_index v k = Ok x -> py_in k v = Ok true.
Proof.
  destruct v; cbn [py_index py_in]; try discriminate.
  unfold dict_has. destruct (dict_get k d); [reflexivity | discriminate].
Qed.

Lemma btdcoded_has_stat (btdcoded : pyval) (key : string) (stat : pyval) :
  stat_a btdcoded key stat -> btdcoded_has btdcoded key = Ok true.
Proof.
  intros (cp & H1 & H2). unfold btdcoded_has, and_then.
  rewrite (py_in_index _ _ _ H1). cbn [bind]. rewrite H1. cbn [bind].
  exact (py_in_index _ _ _ H2).
Qed.

Lemma core_has_stat (core : pyval) (key : string) (stat : pyval) :
  stat_b core key stat -> core_has core key = Ok true.
Proof.
  intros (bs & H1 & H2). unfold core_has, and_then.
  rewrite (py_in_index _ _ _ H1). cbn [bind]. rewrite H1. cbn [bind].
  exact (py_in_index _ _ _ H2).
Qed.

(** A step of the comparison either leaves [comparison] alone or writes
    one record under [out_key]. *)
Lemma compare_one_inv (btdcoded core : pyval)
    (a_key b_key out_key : string) (note : pydict)
    (comparison comparison' : pydict) :
  compare_one btdcoded core a_key b_key out_key note comparison
    = Ok comparison' ->
  comparison' = comparison \/
  exists a_stat b_stat record,
    stat_a btdcoded a_key a_stat /\ stat_b core b_key b_stat /\
    both_record a_stat b_stat note = Ok record /\
    comparison' = dict_set out_key record comparison.
Proof.
  unfold compare_one. intros H.
  peel_all H; try (left; congruence).
  right. injection H as <-.
  eexists _, _, _. split; [eexists; eauto|]. split; [eexists; eauto|].
  split; [eassumption | reflexivity].
Qed.

(** When both sides are there, the step writes the record. *)
Lemma compare_one_found (btdcoded core : pyval)
    (a_key b_key out_key : string) (note : pydict)
    (comparison comparison' : pydict) (a_stat b_stat core_ms : pyval) :
  stat_a btdcoded a_key a_stat ->
  stat_b core b_key b_stat ->
  py_index b_stat "mean_ms" = Ok core_ms ->
  compare_one btdcoded core a_key b_key out_key note comparison
    = Ok comparison' ->
  exists record,
    both_record a_stat b_stat note = Ok record /\
    comparison' = dict_set out_key record comparison.
Proof.
  intros SA SB HM. unfold compare_one.
  rewrite (btdcoded_has_stat _ _ _ SA). cbn [bind negb].
  destruct SA as (cp & A1 & A2). rewrite A1. cbn [bind]. rewrite A2.
  cbn [bind].
  rewrite (core_has_stat _ _ _ SB). cbn [bind negb].
  destruct SB as (bs & B1 & B2). rewrite B1. cbn [bind]. rewrite B2.
  cbn [bind].
  rewrite (py_in_index _ _ _ HM). cbn [bind negb].
  destruct (both_record a_stat b_stat note) as [record|]; cbn [bind];
    [|discriminate].
  intros [= <-]. now exists record.
Qed.

Lemma alone_record_inv (a_stat record : pyval) :
  alone_record a_stat = Ok record -> uncompared a_stat record.
Proof.
  unfold alone_record. intros H. peel_all H. injection H as <-.
  eexists _, _. repeat split; eassumption.
Qed.

Lemma compare_block_inv (btdcoded core : pyval) (a_key c_key : string)
    (comparison comparison' : pydict) :
  compare_block btdcoded core a_key c_key comparison = Ok comparison' ->
  comparison' = comparison \/
  exists a_stat record,
    stat_a btdcoded a_key a_stat /\
    comparison' = dict_set ("block_validation_" ++ c_key) record comparison /\
    ((exists b_stat, stat_b core "block_validation" b_stat /\
                     both_record a_stat b_stat [] = Ok record)
     \/ (core_has core "block_validation" = Ok false /\
         uncompared a_stat record)).
Proof.
  unfold compare_block. intros H.
  peel_all H; try (left; congruence).
  - right. injection H as <-.
    eexists _, _. split; [eexists; eauto|]. split; [reflexivity|].
    left. eexists. split; [eexists; eauto | eassumption].
  - right. injection H as <-.
    eexists _, _. split; [eexists; eauto|]. split; [reflexivity|].
    right. split; [reflexivity|]. now apply alone_record_inv.
Qed.

Lemma compare_block_found (btdcoded core : pyval) (a_key c_key : string)
    (comparison comparison' : pydict) (a_stat b_stat core_ms : pyval) :
  stat_a btdcoded a_key a_stat ->
  stat_b core "block_validation" b_stat ->
  py_index b_stat "mean_ms" = Ok core_ms ->
  compare_block btdcoded core a_key c_key comparison = Ok comparison' ->
  exists record,
    both_record a_stat b_stat [] = Ok record /\
    comparison' = dict_set ("block_validation_" ++ c_key) record comparison.
Proof.
  intros SA SB HM. unfold compare_block.
  destruct SA as (cp & A1 & A2). rewrite A1. cbn [bind].
  rewrite (py_in_index _ _ _ A2). cbn [bind negb]. rewrite A2. cbn [bind].
  rewrite (core_has_stat _ _ _ SB). cbn [bind negb].
  destruct SB as (bs & B1 & B2). rewrite B1. cbn [bind]. rewrite B2.
  cbn [bind].
  rewrite (py_in_index _ _ _ HM). cbn [bind negb].
  destruct (both_record a_stat b_stat []) as [record|]; cbn [bind];
    [|discriminate].
  intros [= <-]. now exists record.
Qed.

(** A step only touches its own key. *)
Lemma compare_one_other (btdcoded core : pyval)
    (a_key b_key out_key k : string) (note : pydict)
    (comparison comparison' : pydict) :
  compare_one btdcoded core a_key b_key out_key note comparison
    = Ok comparison' ->
  k <> out_key -> dict_get k comparison' = dict_get k comparison.
Proof.
  intros H N.
  destruct (compare_one_inv _ _ _ _ _ _ _ _ H)
    as [->|(? & ? & ? & _ & _ & _ & ->)]; [reflexivity|].
  now apply dict_get_set_other.
Qed.

Lemma compare_block_other (btdcoded core : pyval) (a_key c_key k : string)
    (comparison comparison' : pydict) :
  compare_block btdcoded core a_key c_key comparison = Ok comparison' ->
  k <> ("block_validation_" ++ c_key)%string ->
  dict_get k comparison' = dict_get k comparison.
Proof.
  intros H N.
  destruct (compare_block_inv _ _ _ _ _ _ H)
    as [->|(? & ? & _ & -> & _)]; [reflexivity|].
  now apply dict_get_set_other.
Qed.

(** The four steps of [compare_common_metrics], when System A has a
    [consensus_proof] section. *)
Lemma compare_common_metrics_steps (btdcoded core : pyval) (cmp : pydict)
    (cp : pyval) :
  py_index btdcoded "consensus_proof" = Ok cp ->
  compare_common_metrics btdcoded core = Ok cmp ->
  exists c1 c2 c3,
    compare_one btdcoded core "check_transaction" "transaction_validation"
      "transaction_validation" [] [] = Ok c1 /\
    compare_one btdcoded core "sha256_1kb" "hash_operations"
      "hash_operations" hash_note c1 = Ok c2 /\
    compare_block btdcoded core "connect_block" "connect_block" c2 = Ok c3 /\
    compare_block btdcoded core "connect_block_multi_tx"
      "connect_block_multi_tx" c3 = Ok cmp.
Proof.
  intros Hcp. unfold compare_common_metrics.
  destruct (compare_one btdcoded core "check_transaction" _ _ _ _)
    as [c1|] eqn:S1; cbn [bind]; [|discriminate].
  destruct (compare_one btdcoded core "sha256_1kb" _ _ _ _)
    as [c2|] eqn:S2; cbn [bind]; [|discriminate].
  rewrite (py_in_index _ _ _ Hcp). cbn [bind compare_blocks block_benchmarks].
  destruct (compare_block btdcoded core "connect_block" _ _)
    as [c3|] eqn:S3; cbn [bind]; [|discriminate].
  destruct (compare_block btdcoded core "connect_block_multi_tx" _ _)
    as [c4|] eqn:S4; cbn [bind]; [|discriminate].
  intros [= <-]. exists c1, c2, c3. auto.
Qed.

Lemma mean_ms_of_present (a_stat a_ms v : pyval) :
  py_index a_stat "mean_ms" = Ok v ->
  mean_ms_of a_stat = Ok a_ms -> a_ms = v.
Proof.
  unfold mean_ms_of. destruct a_stat; cbn [py_index py_get]; try discriminate.
  destruct (dict_get "mean_ms" d) as [x|]; [|discriminate].
  intros [= <-].
  destruct (dict_get "mean_ns" d); cbn [bind];
    (destruct (py_truediv _ _); cbn [bind]; [|discriminate]);
    now intros [= <-].
Qed.

(** The record of a modelled operation whose two means are there. *)
Lemma compare_common_metrics_found (btdcoded core : pyval) (cmp : pydict)
    (a_key b_key out_key : string) (a_stat b_stat core_ms : pyval) :
  In (a_key, b_key, out_key) modelled ->
  stat_a btdcoded a_key a_stat ->
  stat_b core b_key b_stat ->
  py_index b_stat "mean_ms" = Ok core_ms ->
  compare_common_metrics btdcoded core = Ok cmp ->
  exists record note,
    both_record a_stat b_stat note = Ok record /\
    dict_get out_key cmp = Some record.
Proof.
  intros Hin SA SB HM H.
  destruct SA as (cp & A1 & A2).
  destruct (compare_common_metrics_steps _ _ _ _ A1 H)
    as (c1 & c2 & c3 & S1 & S2 & S3 & S4).
  assert (SA : stat_a btdcoded a_key a_stat) by (exists cp; auto).
  cbn [modelled In] in Hin.
  destruct Hin as [E|[E|[E|[E|[]]]]]; injection E as <- <- <-.
  - destruct (compare_one_found _ _ _ _ _ _ _ _ _ _ _ SA SB HM S1)
      as (record & R & ->).
    exists record, []. split; [exact R|].
    rewrite (compare_block_other _ _ _ _ _ _ _ S4) by discriminate.
    rewrite (compare_block_other _ _ _ _ _ _ _ S3) by discriminate.
    rewrite (compare_one_other _ _ _ _ _ _ _ _ _ S2) by discriminate.
    apply dict_get_set_same.
  - destruct (compare_one_found _ _ _ _ _ _ _ _ _ _ _ SA SB HM S2)
      as (record & R & ->).
    exists record, hash_note. split; [exact R|].
    rewrite (compare_block_other _ _ _ _ _ _ _ S4) by discriminate.
    rewrite (compare_block_other _ _ _ _ _ _ _ S3) by discriminate.
    apply dict_get_set_same.
  - destruct (compare_block_found _ _ _ _ _ _ _ _ _ SA SB HM S3)
      as (record & R & ->).
    exists record, []. split; [exact R|].
    rewrite (compare_block_other _ _ _ _ _ _ _ S4) by discriminate.
    apply dict_get_set_same.
  - destruct (compare_block_found _ _ _ _ _ _ _ _ _ SA SB HM S4)
      as (record & R & ->).
    exists record, []. split; [exact R|].
    apply dict_get_set_same.
Qed.




End CompareMetricsFacts.

Module CoreBenchFacts.
Import CoreBench Spec.

Lemma mbind_inv {A B} (c : M A) (k : A -> M B) (w w' : World) (r : B) :
  mbind c k w = (Ok r, w') ->
  exists a w1, c w = (Ok a, w1) /\ k a w1 = (Ok r, w').
Proof.
  unfold mbind. destruct (c w) as [[a|e] w1]; [eauto | discriminate].
Qed.

Lemma ret_inv {A} (a r : A) (w w' : World) :
  ret a w = (Ok r, w') -> a = r /\ w = w'.
Proof. unfold ret. intros [= -> ->]. auto. Qed.

(** Take a run in [M] known to return apart, call by call. *)
Ltac mpeel H :=
  repeat match type of H with
  | mbind _ _ _ = (Ok _, _) =>
      let E := fresh "E" in
      apply mbind_inv in H; destruct H as (? & ? & E & H)
  | (if ?b then _ else _) _ = _ => destruct b eqn:?
  | ret _ _ = (Ok _, _) =>
      apply ret_inv in H; destruct H as [<- <-]
  end.

(** *** Sum, minimum and maximum *)

Lemma fold_left_Qplus (l : list Q) (a : Q) :
  fold_left Qplus l a == a + Qsum l.
Proof.
  revert a. induction l as [|x l IH]; intros a; cbn [fold_left Qsum fold_right].
  - ring.
  - rewrite IH. fold (Qsum l). ring.
Qed.

Lemma py_sum_Qsum (l : list Q) : py_sum l == Qsum l.
Proof. unfold py_sum. rewrite fold_left_Qplus. ring. Qed.

Lemma py_min_spec (l : list Q) (t : Q) : is_minimum (py_min t l) (t :: l).
Proof.
  unfold py_min, is_minimum. revert t.
  induction l as [|x l IH]; intros t; cbn [fold_left].
  - split; [now left|]. intros y [<-|[]]. apply Qle_refl.
  - destruct (Qlt_bool x t) eqn:E.
    + destruct (IH x) as [I L]. split.
      * right. exact I.
      * intros y [<-|Hy]; [|exact (L y Hy)].
        apply Qle_trans with x; [apply L; now left|].
        apply Qlt_le_weak. now apply Qlt_bool_iff.
    + destruct (IH t) as [I L]. split.
      * destruct I as [I|I]; [now left | right; now right].
      * intros y [<-|[<-|Hy]].
        -- apply L. now left.
        -- apply Qle_trans with t; [apply L; now left|].
           now apply Qlt_bool_false_iff.
        -- apply L. now right.
Qed.

Lemma py_max_spec (l : list Q) (t : Q) : is_maximum (py_max t l) (t :: l).
Proof.
  unfold py_max, is_maximum. revert t.
  induction l as [|x l IH]; intros t; cbn [fold_left].
  - split; [now left|]. intros y [<-|[]]. apply Qle_refl.
  - destruct (Qlt_bool t x) eqn:E.
    + destruct (IH x) as [I L]. split.
      * right. exact I.
      * intros y [<-|Hy]; [|exact (L y Hy)].
        apply Qle_trans with x; [|apply L; now left].
        apply Qlt_le_weak. now apply Qlt_bool_iff.
    + destruct (IH t) as [I L]. split.
      * destruct I as [I|I]; [now left | right; now right].
      * intros y [<-|[<-|Hy]].
        -- apply L. now left.
        -- apply Qle_trans with t; [|apply L; now left].
           now apply Qlt_bool_false_iff.
        -- apply L. now right.
Qed.

Lemma inject_length_succ {A} (x : A) (l : list A) :
  inject_Z (Z.of_nat (length (x :: l)))
  == inject_Z (Z.of_nat (length l)) + 1.
Proof.
  cbn [length]. rewrite Nat2Z.inj_succ, <- Z.add_1_r, inject_Z_plus.
  reflexivity.
Qed.

Lemma Qsum_bounds (l : list Q) (lo hi : Q) :
  (forall x, In x l -> lo <= x /\ x <= hi) ->
  inject_Z (Z.of_nat (length l)) * lo <= Qsum l /\
  Qsum l <= inject_Z (Z.of_nat (length l)) * hi.
Proof.
  induction l as [|x l IH]; intros B.
  - change (inject_Z (Z.of_nat (length (@nil Q)))) with 0.
    rewrite !Qmult_0_l. split; apply Qle_refl.
  - destruct IH as [L H]; [intros y Hy; apply B; now right|].
    destruct (B x (or_introl eq_refl)) as [Bl Bh].
    rewrite inject_length_succ. cbn [Qsum fold_right]. fold (Qsum l).
    split.
    + setoid_replace ((inject_Z (Z.of_nat (length l)) + 1) * lo)
        with (lo + inject_Z (Z.of_nat (length l)) * lo) by ring.
      now apply Qplus_le_compat.
    + setoid_replace ((inject_Z (Z.of_nat (length l)) + 1) * hi)
        with (hi + inject_Z (Z.of_nat (length l)) * hi) by ring.
      now apply Qplus_le_compat.
Qed.

Lemma length_positive {A} (x : A) (l : list A) :
  0 < inject_Z (Z.of_nat (length (x :: l))).
Proof.
  replace 0 with (inject_Z 0) by reflexivity.
  rewrite <- Zlt_Qlt. cbn [length]. lia.
Qed.

(** The mean of a non-empty list lies between any two bounds of its
    items. *)
Lemma mean_between (t : Q) (l : list Q) (lo hi : Q) :
  (forall x, In x (t :: l) -> lo <= x /\ x <= hi) ->
  lo <= arithmetic_mean (t :: l) /\ arithmetic_mean (t :: l) <= hi.
Proof.
  intros B. destruct (Qsum_bounds _ _ _ B) as [L H].
  pose proof (length_positive t l) as P.
  unfold arithmetic_mean. split.
  - apply Qle_shift_div_l; [exact P|]. now rewrite Qmult_comm.
  - apply Qle_shift_div_r; [exact P|]. now rewrite Qmult_comm.
Qed.

(** *** The reduction *)

Lemma reduce_samples_statistics (times : list Q) (extra : pydict) :
  times <> [] -> statistics_of times extra (reduce_samples times extra).
Proof.
  destruct times as [|t rest]; [congruence|]. intros _.
  unfold reduce_samples, statistics_of.
  eexists _, _, _. split; [reflexivity|].
  pose proof (py_min_spec rest t) as Hmin.
  pose proof (py_max_spec rest t) as Hmax.
  assert (Hmean : qdiv (py_sum (t :: rest))
                       (inject_Z (Z.of_nat (length (t :: rest))))
                  == arithmetic_mean (t :: rest)).
  { rewrite qdiv_correct. unfold arithmetic_mean.
    now rewrite py_sum_Qsum. }
  split; [exact Hmean|]. split; [exact Hmin|]. split; [exact Hmax|].
  rewrite Hmean. apply mean_between.
  intros x Hx. split; [apply Hmin | apply Hmax]; exact Hx.
Qed.


(** *** The workloads *)

Lemma block_workload_result (env : Env) (w w' : World) (r : pyval) :
  benchmark_block_validation env w = (Ok r, w') ->
  exists w0 times,
    block_loop env 10 [] w0 = (Ok times, w') /\
    r = reduce_samples times [].
Proof.
  unfold benchmark_block_validation. intros H. mpeel H. eauto.
Qed.

Lemma hash_workload_result (env : Env) (w w' : World) (r : pyval) :
  benchmark_hash_operations env w = (Ok r, w') ->
  exists w0 times,
    hash_loop env 100 [] w0 = (Ok times, w') /\
    r = reduce_samples times proxy_note.
Proof.
  unfold benchmark_hash_operations. intros H. mpeel H. eauto.
Qed.

Lemma tx_workload_result (env : Env) (w w' : World) (r : pyval) :
  benchmark_transaction_validation env w = (Ok r, w') ->
  is_error_object r \/
  exists signed_tx w0 times,
    tx_loop env signed_tx 50 [] w0 = (Ok times, w') /\
    r = reduce_samples times [].
Proof.
  unfold benchmark_transaction_validation. intros H. mpeel H.
  1-4: left; eexists; reflexivity.
  right. eauto.
Qed.

Lemma mbind_ok {A B} (c : M A) (k : A -> M B) (w w1 : World) (a : A) :
  c w = (Ok a, w1) -> mbind c k w = k a w1.
Proof. unfold mbind. now intros ->. Qed.

(** With the daemon up, the result holds what each workload returned. *)
Lemma measure_all_sequence (env : Env) (timestamp : Q)
    (w0 w1 w2 w3 w4 : World) (tx block hash : pyval) :
  ready_loop env 10 w0 = (Ok true, w1) ->
  benchmark_transaction_validation env w1 = (Ok tx, w2) ->
  benchmark_block_validation env w2 = (Ok block, w3) ->
  benchmark_hash_operations env w3 = (Ok hash, w4) ->
  measure_all env timestamp w0
  = (Ok (PDict [("timestamp", PNum timestamp);
                ("system", PStr "Bitcoin Core");
                ("benchmarks",
                 PDict [("transaction_validation", tx);
                        ("block_validation", block);
                        ("hash_operations", hash)])]), w4).
Proof.
  intros R T B H. unfold measure_all.
  rewrite (mbind_ok _ _ _ _ _ R). cbn [negb].
  rewrite (mbind_ok _ _ _ _ _ T).
  rewrite (mbind_ok _ _ _ _ _ B).
  rewrite (mbind_ok _ _ _ _ _ H).
  reflexivity.
Qed.

(** *** The remote call client *)



Lemma rstrip_first (s : string) (c : ascii) :
  first_char s = Some c -> is_space c = false ->
  first_char (rstrip s) = Some c.
Proof.
  destruct s as [|c0 s]; cbn [first_char rstrip]; [discriminate|].
  intros [= ->] E. destruct (rstrip s); [now rewrite E | reflexivity].
Qed.





(** *** The process controller *)

Lemma rpc_call_no_answer (env : Env) (method : string) (w : World) :
  no_answer (cli env (calls w)) ->
  rpc_call env method w
  = (Ok PNone,
     {| calls := S (calls w); ticks := ticks w;
        regtest_exists := regtest_exists w; daemon := daemon w;
        trace := ERpc method :: trace w |}).
Proof.
  unfold rpc_call. intros [-> | (rc & out & -> & N)]; [reflexivity|].
  destruct (Z.eqb_spec rc 0); [contradiction | reflexivity].
Qed.

(** The polling loop of [start_bitcoind] against a daemon that never
    answers: it gives up, having only slept and polled. *)
Lemma wait_for_rpc_no_answer (env : Env) (n : nat) (w : World) :
  (forall i, (calls w <= i < calls w + n)%nat -> no_answer (cli env i)) ->
  exists polls,
    wait_for_rpc env n w
    = (Ok false,
       {| calls := (calls w + n)%nat; ticks := ticks w;
          regtest_exists := regtest_exists w; daemon := daemon w;
          trace := (polls ++ trace w)%list |}) /\
    Forall polling polls.
Proof.
  revert w. induction n as [|n IH]; intros w Hs.
  - exists []. split; [|constructor].
    cbn [wait_for_rpc ret app]. rewrite Nat.add_0_r. now destruct w.
  - cbn [wait_for_rpc]. unfold mbind at 1. cbn [emit].
    unfold mbind at 1.
    rewrite rpc_call_no_answer by (cbn [calls]; apply Hs; lia).
    cbn [is_none negb calls ticks regtest_exists daemon trace].
    match goal with |- context [wait_for_rpc env n ?w1] =>
      destruct (IH w1) as (polls & E & F) end.
    { cbn [calls]. intros i Hi. apply Hs. lia. }
    rewrite E. cbn [calls ticks regtest_exists daemon trace].
    exists (polls ++ [ERpc "getblockcount"; ESleep])%list. split.
    + f_equal. f_equal; [lia|]. now rewrite <- app_assoc.
    + apply Forall_app. split; [exact F|].
      constructor; [right; now eexists|].
      constructor; [now left | constructor].
Qed.

(** Launched but never answering: [run_all_benchmarks] returns from the
    failed start, and after the launch nothing but polling happened. *)
Lemma no_cleanup_after_unanswered_start (env : Env) (w : World) :
  bitcoind_ok env = true ->
  launch env = Launched ->
  (forall i, (calls w <= i < calls w + 20)%nat -> no_answer (cli env i)) ->
  exists w' polls before,
    run_all_benchmarks env w
      = (Ok (error_object "Failed to start bitcoind"), w') /\
    trace w' = (polls ++ ELaunch :: before)%list /\
    Forall polling polls /\
    daemon w' = true /\ regtest_exists w' = true.
Proof.
  intros B L Hs.
  unfold run_all_benchmarks, start_bitcoind. rewrite B, L. cbn [negb].
  unfold rmtree_if_exists.
  destruct w as [c t r d tr]. cbn [calls] in Hs.
  destruct r; unfold mbind, emit, set_regtest, set_daemon;
    cbn [regtest_exists calls ticks daemon trace];
    match goal with |- context [wait_for_rpc env 20 ?w1] =>
      destruct (wait_for_rpc_no_answer env 20 w1 Hs) as (polls & E & F)
    end;
    rewrite E; cbn [negb ret];
    eexists _, polls, _; (split; [reflexivity|]);
    cbn [trace daemon regtest_exists]; auto.
Qed.

Lemma cleanup_returns (env : Env) (w : World) :
  exists w',
    cleanup env w = (Ok tt, w') /\
    regtest_exists w' = false /\
    (cli_ok env = true ->
     exists removed, trace w' = (removed ++ EStop :: trace w)%list /\
                     (removed = [] \/ removed = [ERmtree])).
Proof.
  unfold cleanup, stop_bitcoind, rmtree_if_exists, mbind.
  destruct (cli_ok env) eqn:C; cbn [negb ret];
    [destruct (stop env)|];
    destruct w as [c t [|] d tr]; cbn;
    eexists; split; try reflexivity; split; try reflexivity;
    try discriminate; intros _.
  all: first [ exists [ERmtree]; split; [reflexivity | now right]
             | exists []; split; [reflexivity | now left] ].
Qed.

(** Once [start_bitcoind] has answered [True], whatever the measurements
    do (return or raise), the clean-up runs after them. *)
Lemma cleanup_runs_once_started (env : Env) (w w0 : World) :
  start_bitcoind env w = (Ok true, w0) ->
  exists w',
    run_all_benchmarks env w
      = (fst (measure_all env (wall_time env) w0), w') /\
    cleanup env (snd (measure_all env (wall_time env) w0)) = (Ok tt, w') /\
    regtest_exists w' = false.
Proof.
  intros S. unfold run_all_benchmarks, mbind. rewrite S. cbn [negb].
  unfold try_finally.
  destruct (measure_all env (wall_time env) w0) as [r w1].
  destruct (cleanup_returns env w1) as (w' & C & R & _).
  exists w'. rewrite C. auto.
Qed.

End CoreBenchFacts.

(* ================================================================== *)
(** ** The claims *)
(* ================================================================== *)

Import Spec Examples CoreBench.

(** *** Comparison engine *)

(** C1 (the code departs from the claim).  With System A's hash benchmark
    ([sha256_1kb]) and a System B export that has no [hash_operations],
    [compare_common_metrics] returns no record at all, and likewise for the
    transaction benchmark; only the block-validation branch writes the
    record with System A's data and the note. *)
Theorem hash_operations_without_counterpart_is_dropped :
  Compare.compare_common_metrics
    (btdcoded_with "sha256_1kb" 2) (core_with "transaction_validation" 4)
    = Ok []
  /\ Compare.compare_common_metrics
       (btdcoded_with "check_transaction" 2) (PDict [])
     = Ok []
  /\ Compare.compare_common_metrics
       (btdcoded_with "connect_block" 2) (PDict [])
     = Ok [("block_validation_connect_block",
            PDict [("btdcoded_ms", PNum 2);
                   ("btdcoded_throughput", PNum 0);
                   ("note",
                    PStr "Core benchmark not available for comparison")])].
Proof. repeat split; reflexivity. Qed.

(** Whatever the inputs, a System B without [hash_operations] leaves the
    comparison without a [hash_operations] record. *)
Lemma no_hash_counterpart_no_record (btdcoded core : pyval) (cmp : pydict) :
  Compare.compare_common_metrics btdcoded core = Ok cmp ->
  Compare.core_has core "hash_operations" = Ok false ->
  dict_get "hash_operations" cmp = None.
Proof.
  intros H N. unfold Compare.compare_common_metrics in H.
  destruct (Compare.compare_one btdcoded core "check_transaction" _ _ _ _)
    as [c1|] eqn:S1; cbn [bind] in H; [|discriminate].
  destruct (Compare.compare_one btdcoded core "sha256_1kb" _ _ _ _)
    as [c2|] eqn:S2; cbn [bind] in H; [|discriminate].
  assert (G1 : dict_get "hash_operations" c1 = None).
  { now rewrite (CompareMetricsFacts.compare_one_other _ _ _ _ _ _ _ _ _ S1)
      by discriminate. }
  assert (G2 : dict_get "hash_operations" c2 = None).
  { destruct (CompareMetricsFacts.compare_one_inv _ _ _ _ _ _ _ _ S2)
      as [->|(a & b & r & _ & SB & _)]; [exact G1|].
    rewrite (CompareMetricsFacts.core_has_stat _ _ _ SB) in N.
    discriminate. }
  destruct (py_in "consensus_proof" btdcoded) as [[|]|]; cbn [bind] in H;
    [|now injection H as <- | discriminate].
  cbn [Compare.compare_blocks Compare.block_benchmarks] in H.
  destruct (Compare.compare_block btdcoded core "connect_block" _ _)
    as [c3|] eqn:S3; cbn [bind] in H; [|discriminate].
  destruct (Compare.compare_block btdcoded core "connect_block_multi_tx" _ _)
    as [c4|] eqn:S4; cbn [bind] in H; [|discriminate].
  injection H as <-.
  rewrite (CompareMetricsFacts.compare_block_other _ _ _ _ _ _ _ S4)
    by discriminate.
  rewrite (CompareMetricsFacts.compare_block_other _ _ _ _ _ _ _ S3)
    by discriminate.
  exact G2.
Qed.




(** C5.  For each modelled operation whose mean is there and positive on
    both sides, the comparison (when it returns) holds a record with
    [ratio = B.mean_ms / A.mean_ms] and [faster] naming System A
    (BTCDecoded) if [A.mean_ms < B.mean_ms] and System B (Bitcoin Core)
    otherwise.  With means 2 and 4 the ratio is 2 and System A is faster. *)
Theorem ratio_and_faster :
  (forall (btdcoded core : pyval) (cmp : pydict)
          (a_key b_key out_key : string)
          (a_stat b_stat va vb : pyval) (a b : Q),
     In (a_key, b_key, out_key) modelled ->
     stat_a btdcoded a_key a_stat ->
     py_index a_stat "mean_ms" = Ok va -> num_of va = Some a ->
     stat_b core b_key b_stat ->
     py_index b_stat "mean_ms" = Ok vb -> num_of vb = Some b ->
     0 < a -> 0 < b ->
     Compare.compare_common_metrics btdcoded core = Ok cmp ->
     exists record ratio,
       dict_get out_key cmp = Some (PDict record) /\
       dict_get "ratio" record = Some (PNum ratio) /\
       ratio == b / a /\
       dict_get "faster" record
         = Some (PStr (if Qlt_bool a b then "BTCDecoded"
                       else "Bitcoin Core")))
  /\
  Compare.compare_common_metrics
    (btdcoded_with "check_transaction" 2)
    (core_with "transaction_validation" 4)
  = Ok [("transaction_validation",
         PDict [("btdcoded_ms", PNum 2); ("core_ms", PNum 4);
                ("ratio", PNum 2); ("faster", PStr "BTCDecoded");
                ("btdcoded_throughput", PNum 0)])].
Proof.
  split; [|reflexivity].
  intros btdcoded core cmp a_key b_key out_key a_stat b_stat va vb a b
         Hin SA Hva Na SB Hvb Nb Pa Pb H.
  destruct (CompareMetricsFacts.compare_common_metrics_found
              _ _ _ _ _ _ _ _ _ Hin SA SB Hvb H)
    as (record & note & R & G).
  destruct (CompareMetricsFacts.both_record_inv _ _ _ _ R)
    as (a_ms & core_ms & qa & qb & Ha & Hb & Nqa & Nqb & thr & _ & ->).
  rewrite (CompareMetricsFacts.mean_ms_of_present _ _ _ Hva Ha) in Nqa.
  rewrite Hvb in Hb. injection Hb as <-.
  rewrite Na in Nqa. injection Nqa as <-.
  rewrite Nb in Nqb. injection Nqb as <-.
  apply Qlt_bool_iff in Pa. rewrite Pa in G.
  eexists _, _. split; [exact G|].
  split; [reflexivity|]. split; [apply qdiv_correct | reflexivity].
Qed.

Lemma ratio_and_faster_witness :
  In ("check_transaction", "transaction_validation",
      "transaction_validation") modelled /\
  0 < 2 /\ 0 < 4 /\
  exists record ratio,
    dict_get "transaction_validation"
      [("transaction_validation",
        PDict [("btdcoded_ms", PNum 2); ("core_ms", PNum 4);
               ("ratio", PNum 2); ("faster", PStr "BTCDecoded");
               ("btdcoded_throughput", PNum 0)])]
      = Some (PDict record) /\
    dict_get "ratio" record = Some (PNum ratio) /\
    ratio == 4 / 2 /\
    dict_get "faster" record = Some (PStr "BTCDecoded").
Proof.
  split; [now left|]. split; [reflexivity|]. split; [reflexivity|].
  apply (proj1 ratio_and_faster
           (btdcoded_with "check_transaction" 2)
           (core_with "transaction_validation" 4)
           _ "check_transaction" "transaction_validation"
           "transaction_validation"
           (PDict [("mean_ms", PNum 2)]) (PDict [("mean_ms", PNum 4)])
           (PNum 2) (PNum 4) 2 4).
  - now left.
  - eexists; split; reflexivity.
  - reflexivity.
  - reflexivity.
  - eexists; split; reflexivity.
  - reflexivity.
  - reflexivity.
  - reflexivity.
  - reflexivity.
  - reflexivity.
Defined.

(** *** Statistics report parser *)





(** C10.  If one name of the report maps to [null], a boolean or a
    number, both parsers return the empty result set for the whole file,
    with their one message and nothing else, whatever the other entries
    are. *)
Theorem one_ill_typed_entry_empties_the_result :
  forall (items : pydict) (name : string) (v : pyval),
    In (name, v) items ->
    not_container v ->
    (exists e,
       Compare.parse_criterion_results (Ok (PDict items))
       = ([], [Compare.Warning e; Compare.Traceback]))
    /\
    (exists e,
       Exporter.parse_criterion_results (Ok (PDict items))
       = ([], [Exporter.ParseError e])).
Proof.
  intros items name v Hin N. split.
  - destruct (CompareFacts.cmp_parse_items_not_container items [] name v
                Hin N) as (e & H).
    exists e. unfold Compare.parse_criterion_results. cbn [bind].
    now rewrite H.
  - destruct (ExporterFacts.exp_parse_items_not_container items [] name v
                Hin N) as (e & H).
    exists e. unfold Exporter.parse_criterion_results. cbn [bind].
    now rewrite H.
Qed.

Lemma one_ill_typed_entry_empties_the_result_witness :
  In ("sha256_1kb", PNum 5)
     [("check_transaction", good_entry); ("sha256_1kb", PNum 5)] /\
  not_container (PNum 5) /\
  Compare.parse_criterion_results (Ok ill_typed_report)
    = ([], [Compare.Warning TypeError; Compare.Traceback]) /\
  (exists e,
     Exporter.parse_criterion_results (Ok ill_typed_report)
     = ([], [Exporter.ParseError e])).
Proof.
  assert (I : In ("sha256_1kb", PNum 5)
                 [("check_transaction", good_entry); ("sha256_1kb", PNum 5)])
    by (right; now left).
  assert (N : not_container (PNum 5)) by (right; right; now exists 5).
  split; [exact I|]. split; [exact N|]. split; [reflexivity|].
  exact (proj2 (one_ill_typed_entry_empties_the_result _ _ _ I N)).
Defined.

(** *** Benchmark suite and process controller *)



(** C8.  The common tail of the workloads turns zero samples into an
    error object, which is no statistics record; each workload that
    returns gives either an error object from before its timing loop or
    that tail applied to what the loop collected; and once the daemon
    answers, [run_all_benchmarks] reports under [benchmarks] what each of
    the three workloads returned, error object or not. *)
Theorem zero_samples_give_an_error_object :
  (forall extra : pydict,
     reduce_samples [] extra = error_object "No valid measurements")
  /\
  (forall r : pyval, is_error_object r -> py_in "mean_ms" r = Ok false)
  /\
  (forall (env : Env) (w w' : World) (r : pyval),
     benchmark_transaction_validation env w = (Ok r, w') ->
     is_error_object r \/
     exists signed_tx w0 times,
       tx_loop env signed_tx 50 [] w0 = (Ok times, w') /\
       r = reduce_samples times [])
  /\
  (forall (env : Env) (w w' : World) (r : pyval),
     benchmark_block_validation env w = (Ok r, w') ->
     exists w0 times,
       block_loop env 10 [] w0 = (Ok times, w') /\
       r = reduce_samples times [])
  /\
  (forall (env : Env) (w w' : World) (r : pyval),
     benchmark_hash_operations env w = (Ok r, w') ->
     exists w0 times,
       hash_loop env 100 [] w0 = (Ok times, w') /\
       r = reduce_samples times proxy_note)
  /\
  (forall (env : Env) (w w0 w1 w2 w3 w4 : World) (tx block hash : pyval),
     start_bitcoind env w = (Ok true, w0) ->
     ready_loop env 10 w0 = (Ok true, w1) ->
     benchmark_transaction_validation env w1 = (Ok tx, w2) ->
     benchmark_block_validation env w2 = (Ok block, w3) ->
     benchmark_hash_operations env w3 = (Ok hash, w4) ->
     fst (run_all_benchmarks env w)
     = Ok (PDict [("timestamp", PNum (wall_time env));
                  ("system", PStr "Bitcoin Core");
                  ("benchmarks",
                   PDict [("transaction_validation", tx);
                          ("block_validation", block);
                          ("hash_operations", hash)])])).
Proof.
  split; [reflexivity|]. split; [now intros r [msg ->]|].
  split; [exact CoreBenchFacts.tx_workload_result|].
  split; [exact CoreBenchFacts.block_workload_result|].
  split; [exact CoreBenchFacts.hash_workload_result|].
  intros env w w0 w1 w2 w3 w4 tx block hash S R T B H.
  destruct (CoreBenchFacts.cleanup_runs_once_started _ _ _ S)
    as (w' & -> & _).
  cbn [fst].
  now rewrite (CoreBenchFacts.measure_all_sequence _ _ _ _ _ _ _ _ _ _
                 R T B H).
Qed.

Lemma zero_samples_give_an_error_object_witness :
  start_bitcoind no_mining fresh = (Ok true, started) /\
  ready_loop no_mining 10 started = (Ok true, ready) /\
  benchmark_transaction_validation no_mining ready
    = (Ok (error_object "Failed to generate blocks"), after_tx) /\
  benchmark_block_validation no_mining after_tx
    = (Ok (PDict [("mean_ms", PNum 1); ("min_ms", PNum 1);
                  ("max_ms", PNum 1); ("samples", PNum 10)]),
       after_block) /\
  benchmark_hash_operations no_mining after_block
    = (Ok (PDict [("mean_ms", PNum 1); ("min_ms", PNum 1);
                  ("max_ms", PNum 1); ("samples", PNum 100);
                  ("note",
                   PStr "Using getblockhash as proxy for SHA256 operations")]),
       after_hash) /\
  fst (run_all_benchmarks no_mining fresh)
  = Ok (PDict
          [("timestamp", PNum 1700000000);
           ("system", PStr "Bitcoin Core");
           ("benchmarks",
            PDict
              [("transaction_validation",
                error_object "Failed to generate blocks");
               ("block_validation",
                PDict [("mean_ms", PNum 1); ("min_ms", PNum 1);
                       ("max_ms", PNum 1); ("samples", PNum 10)]);
               ("hash_operations",
                PDict [("mean_ms", PNum 1); ("min_ms", PNum 1);
                       ("max_ms", PNum 1); ("samples", PNum 100);
                       ("note",
                        PStr "Using getblockhash as proxy for SHA256 operations")])])]).
Proof.
  assert (S : start_bitcoind no_mining fresh = (Ok true, started))
    by (vm_compute; reflexivity).
  assert (R : ready_loop no_mining 10 started = (Ok true, ready))
    by (vm_compute; reflexivity).
  assert (T : benchmark_transaction_validation no_mining ready
              = (Ok (error_object "Failed to generate blocks"), after_tx))
    by (vm_compute; reflexivity).
  assert (B : benchmark_block_validation no_mining after_tx
              = (Ok (PDict [("mean_ms", PNum 1); ("min_ms", PNum 1);
                            ("max_ms", PNum 1); ("samples", PNum 10)]),
                 after_block))
    by (vm_compute; reflexivity).
  assert (H : benchmark_hash_operations no_mining after_block
              = (Ok (PDict [("mean_ms", PNum 1); ("min_ms", PNum 1);
                            ("max_ms", PNum 1); ("samples", PNum 100);
                            ("note",
                             PStr "Using getblockhash as proxy for SHA256 operations")]),
                 after_hash))
    by (vm_compute; reflexivity).
  repeat (split; [assumption|]).
  exact (proj2 (proj2 (proj2 (proj2 (proj2
           zero_samples_give_an_error_object))))
           no_mining fresh _ _ _ _ _ _ _ _ S R T B H).
Defined.

(** The part of C2 that the code keeps: a workload that raises (here
    [len] of a number in the transaction workload) is followed by the stop
    command and the removal of the regtest directory. *)
Lemma raising_workload_is_cleaned_up :
  fst (run_all_benchmarks odd_wallet fresh) = Raise TypeError /\
  firstn 2 (trace (snd (run_all_benchmarks odd_wallet fresh)))
    = [ERmtree; EStop] /\
  daemon (snd (run_all_benchmarks odd_wallet fresh)) = false /\
  regtest_exists (snd (run_all_benchmarks odd_wallet fresh)) = false.
Proof. vm_compute. repeat split; reflexivity. Qed.

(** C2 (the code departs from the claim).  When the daemon is launched
    and the client never gets an answer, [run_all_benchmarks] gives up
    after the twenty polls of [start_bitcoind] without running the stop
    command and without removing the regtest directory: the daemon is
    left in the background and the directory in place. *)
Theorem unresponsive_start_is_not_cleaned_up :
  fst (run_all_benchmarks silent fresh)
    = Ok (error_object "Failed to start bitcoind") /\
  In ELaunch (trace (snd (run_all_benchmarks silent fresh))) /\
  ~ In EStop (trace (snd (run_all_benchmarks silent fresh))) /\
  ~ In ERmtree (trace (snd (run_all_benchmarks silent fresh))) /\
  daemon (snd (run_all_benchmarks silent fresh)) = true /\
  regtest_exists (snd (run_all_benchmarks silent fresh)) = true.
Proof.
  vm_compute. repeat split; try reflexivity.
  - do 40 right. now left.
  - intros H. repeat (destruct H as [H|H]; [discriminate H|]). exact H.
  - intros H. repeat (destruct H as [H|H]; [discriminate H|]). exact H.
Qed.




(* ================================================================== *)
(** ** Further properties of the scripts *)
(* ================================================================== *)

Import More.

(** *** The two parsers *)

Lemma dict_has_set (k k' : string) (v : pyval) (d : pydict) :
  dict_has k (dict_set k' v d) = String.eqb k k' || dict_has k d.
Proof.
  unfold dict_has. destruct (String.eqb_spec k k') as [->|N].
  - now rewrite dict_get_set_same.
  - now rewrite dict_get_set_other by assumption.
Qed.

Lemma cmp_parse_entry_keeps (results results' : pydict) (name k : string)
    (data : pyval) :
  Compare.parse_entry results name data = Ok results' ->
  dict_has k results = true -> dict_has k results' = true.
Proof.
  intros H G.
  destruct (CompareFacts.cmp_parse_entry_inv _ _ _ _ H)
    as [->|(? & ? & ? & -> & _)]; [exact G|].
  rewrite dict_has_set, G. apply orb_true_r.
Qed.

Lemma cmp_parse_entry_adds (results results' : pydict) (name : string)
    (data : pyval) :
  has_point_estimate data ->
  Compare.parse_entry results name data = Ok results' ->
  dict_has name results' = true.
Proof.
  intros (mean & pe & Hm & Hp) H. unfold Compare.parse_entry in H.
  rewrite (CompareMetricsFacts.py_in_index _ _ _ Hm) in H.
  cbn [bind negb] in H. rewrite Hm in H. cbn [bind] in H.
  rewrite (CompareMetricsFacts.py_in_index _ _ _ Hp) in H.
  cbn [bind negb] in H. rewrite Hp in H. cbn [bind] in H.
  peel_all H; injection H as <-; rewrite dict_has_set, String.eqb_refl;
    reflexivity.
Qed.

Lemma cmp_parse_items_complete (items results results' : pydict)
    (name : string) (data : pyval) :
  Compare.parse_items items results = Ok results' ->
  (dict_has name results = true \/
   (In (name, data) items /\ has_point_estimate data)) ->
  dict_has name results' = true.
Proof.
  revert results.
  induction items as [|[n d] items IH]; intros results H G.
  - injection H as <-. destruct G as [G|[[] _]]. exact G.
  - cbn [Compare.parse_items] in H.
    destruct (Compare.parse_entry results n d) as [r1|] eqn:E;
      cbn [bind] in H; [|discriminate].
    apply (IH r1 H).
    destruct G as [G|[[[= -> ->]|I] P]].
    + left. exact (cmp_parse_entry_keeps _ _ _ _ _ E G).
    + left. exact (cmp_parse_entry_adds _ _ _ _ P E).
    + right. now split.
Qed.

Lemma exp_read_entry_keeps (results results' : pydict) (name k : string)
    (data : pyval) :
  Exporter.read_entry results name data = Ok results' ->
  dict_has k results = true -> dict_has k results' = true.
Proof.
  intros H G.
  destruct (ExporterFacts.exp_parse_entry_inv _ _ _ _ H)
    as [->|(? & ? & ? & -> & _)]; [exact G|].
  rewrite dict_has_set, G. apply orb_true_r.
Qed.

Lemma exp_read_entry_adds (results results' : pydict) (name : string)
    (data : pyval) :
  has_point_estimate data ->
  Exporter.read_entry results name data = Ok results' ->
  dict_has name results' = true.
Proof.
  intros (mean & pe & Hm & Hp) H. unfold Exporter.read_entry in H.
  rewrite (CompareMetricsFacts.py_in_index _ _ _ Hm) in H.
  cbn [bind negb] in H. rewrite Hm in H. cbn [bind] in H.
  rewrite (CompareMetricsFacts.py_in_index _ _ _ Hp) in H.
  cbn [bind negb] in H. rewrite Hp in H. cbn [bind] in H.
  peel_all H; injection H as <-; rewrite dict_has_set, String.eqb_refl;
    reflexivity.
Qed.

Lemma exp_read_items_complete (items results results' : pydict)
    (name : string) (data : pyval) :
  Exporter.read_items items results = Ok results' ->
  (dict_has name results = true \/
   (In (name, data) items /\ has_point_estimate data)) ->
  dict_has name results' = true.
Proof.
  revert results.
  induction items as [|[n d] items IH]; intros results H G.
  - injection H as <-. destruct G as [G|[[] _]]. exact G.
  - cbn [Exporter.read_items] in H.
    destruct (Exporter.read_entry results n d) as [r1|] eqn:E;
      cbn [bind] in H; [|discriminate].
    apply (IH r1 H).
    destruct G as [G|[[[= -> ->]|I] P]].
    + left. exact (exp_read_entry_keeps _ _ _ _ _ E G).
    + left. exact (exp_read_entry_adds _ _ _ _ P E).
    + right. now split.
Qed.

(** X1.  When a parser reads a report without printing anything, every
    entry of the report that has [mean.point_estimate] has a record under
    its name in the result set; this holds for the parser of either
    script. *)
Theorem parsers_keep_every_estimated_entry :
  forall (items : pydict) (name : string) (data : pyval),
    In (name, data) items ->
    has_point_estimate data ->
    (forall results,
       Compare.parse_criterion_results (Ok (PDict items)) = (results, []) ->
       dict_has name results = true)
    /\
    (forall results,
       Exporter.parse_criterion_results (Ok (PDict items)) = (results, []) ->
       dict_has name results = true).
Proof.
  intros items name data I P. split; intros results H.
  - unfold Compare.parse_criterion_results in H. cbn [bind] in H.
    destruct (Compare.parse_items items []) as [r|e] eqn:E;
      [|discriminate].
    injection H as <-.
    apply (cmp_parse_items_complete _ _ _ _ data E). right. now split.
  - unfold Exporter.parse_criterion_results in H. cbn [bind] in H.
    destruct (Exporter.read_items items []) as [r|e] eqn:E;
      [|discriminate].
    injection H as <-.
    apply (exp_read_items_complete _ _ _ _ data E). right. now split.
Qed.

Lemma parsers_keep_every_estimated_entry_witness :
  In ("check_transaction", good_entry)
     [("check_transaction", good_entry); ("sha256_1kb", bad_entry)] /\
  has_point_estimate good_entry /\
  dict_has "check_transaction"
    (fst (Compare.parse_criterion_results (Ok partial_report))) = true /\
  dict_has "check_transaction"
    (fst (Exporter.parse_criterion_results (Ok partial_report))) = true.
Proof.
  assert (I : In ("check_transaction", good_entry)
                 [("check_transaction", good_entry);
                  ("sha256_1kb", bad_entry)]) by now left.
  assert (P : has_point_estimate good_entry)
    by (eexists _, _; split; reflexivity).
  split; [exact I|]. split; [exact P|].
  destruct (parsers_keep_every_estimated_entry _ _ _ I P) as [C E].
  split; [exact (C _ eq_refl) | exact (E _ eq_refl)].
Defined.

Lemma dict_set_Forall2 (R : string * pyval -> string * pyval -> Prop)
    (k : string) (v v' : pyval) (d d' : pydict) :
  (forall x y, R x y -> fst x = fst y) ->
  Forall2 R d d' -> R (k, v) (k, v') ->
  Forall2 R (dict_set k v d) (dict_set k v' d').
Proof.
  intros Hfst F Hv. induction F as [|[k1 v1] [k2 v2] d d' Hx F IH];
    cbn [dict_set].
  - constructor; [exact Hv | constructor].
  - pose proof (Hfst _ _ Hx) as K. cbn [fst] in K. subst k2.
    destruct (String.eqb k k1); constructor; auto.
Qed.

Lemma read_entry_follows (c c' e : pydict) (name : string) (data : pyval) :
  Compare.parse_entry c name data = Ok c' ->
  Forall2 same_stats c e ->
  exists e',
    Exporter.read_entry e name data = Ok e' /\ Forall2 same_stats c' e'.
Proof.
  unfold Compare.parse_entry, Exporter.read_entry. intros H F.
  peel_all H; injection H as <-.
  all: repeat (progress (repeat match goal with
                                | E : _ = _ |- _ => rewrite E
                                end; cbn [bind negb])).
  all: eexists; (split; [reflexivity|]).
  all: try exact F.
  all: apply dict_set_Forall2; [now intros x y [K _] | exact F |].
  all: split; [reflexivity|]; eexists _, _; split; [reflexivity|].
  all: split; [reflexivity|].
  all: cbn; repeat split; reflexivity.
Qed.

Lemma read_items_follow (items c c' e : pydict) :
  Compare.parse_items items c = Ok c' ->
  Forall2 same_stats c e ->
  exists e',
    Exporter.read_items items e = Ok e' /\ Forall2 same_stats c' e'.
Proof.
  revert c e. induction items as [|[n d] items IH]; intros c e H F.
  - injection H as <-. now exists e.
  - cbn [Compare.parse_items Exporter.read_items] in *.
    destruct (Compare.parse_entry c n d) as [c1|] eqn:E; cbn [bind] in H;
      [|discriminate].
    destruct (read_entry_follows _ _ _ _ _ E F) as (e1 & R & F1).
    rewrite R. cbn [bind]. exact (IH _ _ H F1).
Qed.

(** X2.  Whatever report the parser of the comparison script reads
    without printing a warning, the parser of the export script reads
    without an error too, and gives the same names in the same order, each
    with the same [mean_ms], [mean_ns], [min_ms], [max_ms], [samples] and
    throughput (as [None] where the first parser has no such key). *)
Theorem export_parser_follows_comparison_parser :
  forall (file : result pyval) (results : pydict),
    Compare.parse_criterion_results file = (results, []) ->
    exists exported,
      Exporter.parse_criterion_results file = (exported, []) /\
      Forall2 same_stats results exported.
Proof.
  intros file results H.
  unfold Compare.parse_criterion_results in H.
  unfold Exporter.parse_criterion_results.
  destruct file as [data|e]; cbn [bind] in *; [|discriminate].
  destruct data as [| | | | |items];
    try (injection H as <-; exists []; split; [reflexivity | constructor]).
  destruct (Compare.parse_items items []) as [r|e] eqn:E; [|discriminate].
  injection H as <-.
  destruct (read_items_follow _ _ _ [] E (Forall2_nil _)) as (e' & R & F).
  exists e'. now rewrite R.
Qed.

Lemma export_parser_follows_comparison_parser_witness :
  Compare.parse_criterion_results (Ok partial_report)
  = ([("check_transaction",
       PDict [("mean_ns", PNum 1500); ("mean_ms", PNum (3 # 2000));
              ("lower_bound_ns", PNone); ("upper_bound_ns", PNone);
              ("throughput_ops_per_sec", PNum (2000000 # 3))])], []) /\
  exists exported,
    Exporter.parse_criterion_results (Ok partial_report) = (exported, []) /\
    Forall2 same_stats
      [("check_transaction",
        PDict [("mean_ns", PNum 1500); ("mean_ms", PNum (3 # 2000));
               ("lower_bound_ns", PNone); ("upper_bound_ns", PNone);
               ("throughput_ops_per_sec", PNum (2000000 # 3))])]
      exported.
Proof.
  split; [reflexivity|].
  exact (export_parser_follows_comparison_parser (Ok partial_report) _
           eq_refl).
Defined.

(** *** The export *)

Lemma mapped_name_passes (table : list (string * string)) (name : string) :
  ~ In name (map fst table) -> Exporter.mapped_name table name = name.
Proof.
  induction table as [|[k v] table IH]; cbn [Exporter.mapped_name map fst In];
    [reflexivity|].
  intros N. destruct (String.eqb_spec name k) as [->|_].
  - exfalso. apply N. now left.
  - apply IH. intros I. apply N. now right.
Qed.

(** X3.  Renaming for the export leaves every name outside the mapping
    table as it is, and renaming twice is renaming once: no Core-like name
    that the table produces is itself a name the table renames. *)
Theorem renaming_is_idempotent :
  forall name : string,
    (~ In name (map fst Exporter.benchmark_mapping) ->
     Exporter.mapped_name Exporter.benchmark_mapping name = name)
    /\
    Exporter.mapped_name Exporter.benchmark_mapping
      (Exporter.mapped_name Exporter.benchmark_mapping name)
    = Exporter.mapped_name Exporter.benchmark_mapping name.
Proof.
  intros name. split; [apply mapped_name_passes|].
  destruct (in_dec string_dec name (map fst Exporter.benchmark_mapping))
    as [I|N].
  - cbn in I. repeat (destruct I as [<-|I]; [reflexivity|]). destruct I.
  - now rewrite !(mapped_name_passes _ name N).
Qed.

Lemma renaming_is_idempotent_witness :
  ~ In "verify_script" (map fst Exporter.benchmark_mapping) /\
  Exporter.mapped_name Exporter.benchmark_mapping "verify_script"
    = "verify_script".
Proof.
  assert (N : ~ In "verify_script" (map fst Exporter.benchmark_mapping)).
  { cbn. intros I. repeat (destruct I as [I|I]; [discriminate I|]).
    exact I. }
  split; [exact N|].
  exact (proj1 (renaming_is_idempotent "verify_script") N).
Defined.

Lemma export_items_step (name : string) (r : pyval) (rest out b : pydict) :
  Exporter.export_items ((name, r) :: rest) b = Ok out ->
  exists cf,
    Exporter.core_format_of name r = Ok cf /\
    Exporter.export_items rest (dict_set (renamed name) (PDict cf) b)
      = Ok out.
Proof.
  cbn [Exporter.export_items]. intros H.
  destruct (Exporter.core_format_of name r) as [cf|]; cbn [bind] in H;
    [|discriminate].
  now exists cf.
Qed.

Lemma export_items_untouched (results out b : pydict) (k : string) :
  Exporter.export_items results b = Ok out ->
  (forall n r, In (n, r) results -> renamed n <> k) ->
  dict_get k out = dict_get k b.
Proof.
  revert b. induction results as [|[n r] results IH]; intros b H N.
  - now injection H as <-.
  - destruct (export_items_step _ _ _ _ _ H) as (cf & _ & H').
    rewrite (IH _ H') by (intros n' r' I; apply (N n' r'); now right).
    apply dict_get_set_other. intros E. apply (N n r); [now left|].
    now symmetry.
Qed.

Lemma export_items_keys (results out b : pydict) (k : string) :
  Exporter.export_items results b = Ok out ->
  dict_has k out = true ->
  dict_has k b = true \/ exists n r, In (n, r) results /\ k = renamed n.
Proof.
  revert b. induction results as [|[n r] results IH]; intros b H G.
  - injection H as <-. now left.
  - destruct (export_items_step _ _ _ _ _ H) as (cf & _ & H').
    destruct (IH _ H' G) as [G'|(n' & r' & I & ->)].
    + rewrite dict_has_set in G'. apply orb_true_iff in G'.
      destruct G' as [E|G']; [|now left].
      apply String.eqb_eq in E. right. exists n, r. split; [now left|].
      exact E.
    + right. exists n', r'. split; [now right | reflexivity].
Qed.

(** X4.  The export holds one record per key: the key of a parsed
    benchmark is its renamed name, every key of the export is the renamed
    name of a parsed benchmark, and when several parsed benchmarks are
    renamed to one key the record is that of the last of them. *)
Theorem export_is_keyed_by_renamed_names :
  forall (before after : pydict) (name : string) (r : pyval) (out : pydict),
    Exporter.export_items (before ++ (name, r) :: after)%list [] = Ok out ->
    (forall n' r', In (n', r') after -> renamed n' <> renamed name) ->
    (exists cf,
       Exporter.core_format_of name r = Ok cf /\
       dict_get (renamed name) out = Some (PDict cf) /\
       dict_get "original_name" cf = Some (PStr name))
    /\
    (forall k, dict_has k out = true ->
               exists n' r', In (n', r') (before ++ (name, r) :: after)%list /\
                             k = renamed n').
Proof.
  intros before after name r out H N. split.
  - assert (G : forall b,
               Exporter.export_items (before ++ (name, r) :: after)%list b
                 = Ok out ->
               exists cf,
                 Exporter.core_format_of name r = Ok cf /\
                 dict_get (renamed name) out = Some (PDict cf)).
    { clear H. induction before as [|[n0 r0] before IH]; intros b H;
        cbn [app] in H.
      - destruct (export_items_step _ _ _ _ _ H) as (cf & C & H').
        exists cf. split; [exact C|].
        rewrite (export_items_untouched _ _ _ _ H' N).
        apply dict_get_set_same.
      - destruct (export_items_step _ _ _ _ _ H) as (cf0 & _ & H').
        exact (IH _ H'). }
    destruct (G [] H) as (cf & C & D). exists cf.
    split; [exact C|]. split; [exact D|].
    unfold Exporter.core_format_of in C. peel_all C.
    injection C as <-. apply dict_get_set_same.
  - intros k G.
    destruct (export_items_keys _ _ _ _ H G) as [F|X];
      [discriminate F | exact X].
Qed.

Lemma export_is_keyed_by_renamed_names_witness :
  Exporter.export_items
    ([("transaction_validation", PDict [("mean_ms", PNum 1)])]
     ++ ("check_transaction", PDict [("mean_ms", PNum 2)]) :: [])%list []
  = Ok [("transaction_validation",
         PDict [("mean_ms", PNum 2);
                ("original_name", PStr "check_transaction")])] /\
  exists cf,
    Exporter.core_format_of "check_transaction" (PDict [("mean_ms", PNum 2)])
      = Ok cf /\
    dict_get (renamed "check_transaction")
      [("transaction_validation",
        PDict [("mean_ms", PNum 2);
               ("original_name", PStr "check_transaction")])]
      = Some (PDict cf) /\
    dict_get "original_name" cf = Some (PStr "check_transaction").
Proof.
  split; [reflexivity|].
  refine (proj1 (export_is_keyed_by_renamed_names
                   [("transaction_validation", PDict [("mean_ms", PNum 1)])]
                   [] "check_transaction" (PDict [("mean_ms", PNum 2)])
                   _ eq_refl _)).
  intros n' r' [].
Defined.





(** *** The comparison of loaded results *)






Lemma reduce_samples_record (times : list Q) (extra : pydict) :
  workload_record extra (reduce_samples times extra).
Proof.
  destruct times as [|t rest].
  - left. now eexists.
  - right. exists (t :: rest). split; [discriminate|].
    apply CoreBenchFacts.reduce_samples_statistics. discriminate.
Qed.

Lemma measure_all_result (env : Env) (timestamp : Q) (w w' : World)
    (r : pyval) :
  measure_all env timestamp w = (Ok r, w') ->
  benchmark_document timestamp r.
Proof.
  unfold measure_all. intros H. CoreBenchFacts.mpeel H.
  - right. now left.
  - right. right.
    match goal with
    | T : benchmark_transaction_validation _ _ = _,
      B : benchmark_block_validation _ _ = _,
      X : benchmark_hash_operations _ _ = _ |- _ =>
        destruct (CoreBenchFacts.tx_workload_result _ _ _ _ T)
          as [Et|(? & ? & tt & _ & ->)];
        destruct (CoreBenchFacts.block_workload_result _ _ _ _ B)
          as (? & tb & _ & ->);
        destruct (CoreBenchFacts.hash_workload_result _ _ _ _ X)
          as (? & th & _ & ->)
    end.
    + eexists _, _, _. split; [reflexivity|].
      split; [now left|]. split; apply reduce_samples_record.
    + eexists _, _, _. split; [reflexivity|].
      split; [|split]; apply reduce_samples_record.
Qed.

Lemma run_all_benchmarks_result (env : Env) (w w' : World) (r : pyval) :
  run_all_benchmarks env w = (Ok r, w') ->
  benchmark_document (wall_time env) r.
Proof.
  unfold run_all_benchmarks. intros H.
  apply CoreBenchFacts.mbind_inv in H. destruct H as (started & w0 & S & H).
  destruct started; cbn [negb] in H.
  - unfold try_finally in H.
    destruct (measure_all env (wall_time env) w0) as [r1 w1] eqn:M.
    destruct (cleanup env w1) as [[u|e] w2]; [|discriminate].
    injection H as -> <-. exact (measure_all_result _ _ _ _ _ M).
  - apply CoreBenchFacts.ret_inv in H. destruct H as [<- _]. now left.
Qed.







Lemma no_benchmarks_core_has (c : pydict) (key : string) :
  dict_get "benchmarks" c = None ->
  Compare.core_has (PDict c) key = Ok false.
Proof.
  intros N. unfold Compare.core_has, Compare.and_then.
  cbn [py_in bind]. unfold dict_has. now rewrite N.
Qed.

(** X7.  Against a Core document without [benchmarks] (the empty object
    of a missing or unreadable file, or the error object of a failed
    start), the comparison holds exactly the block-validation benchmarks
    of System A: each variant that System A has gets a record, every
    record is one of them, and each record has System A's data and the
    note only. *)
Theorem without_core_only_block_records :
  forall (btdcoded : pyval) (c cmp : pydict),
    dict_get "benchmarks" c = None ->
    Compare.compare_common_metrics btdcoded (PDict c) = Ok cmp ->
    (forall k r,
       dict_get k cmp = Some r ->
       exists a_key a_stat,
         In a_key block_variants /\
         k = ("block_validation_" ++ a_key)%string /\
         stat_a btdcoded a_key a_stat /\ uncompared a_stat r)
    /\
    (forall a_key a_stat,
       In a_key block_variants ->
       stat_a btdcoded a_key a_stat ->
       exists r,
         dict_get ("block_validation_" ++ a_key)%string cmp = Some r /\
         uncompared a_stat r).
Proof.
  intros btdcoded c cmp N H.
  assert (Hone : forall a_key b_key out_key note c0 c1,
             Compare.compare_one btdcoded (PDict c) a_key b_key out_key
               note c0 = Ok c1 -> c1 = c0).
  { intros a_key b_key out_key note c0 c1 S.
    destruct (CompareMetricsFacts.compare_one_inv _ _ _ _ _ _ _ _ S)
      as [->|(a & b & r & _ & SB & _)]; [reflexivity|].
    pose proof (no_benchmarks_core_has c b_key N) as F.
    rewrite (CompareMetricsFacts.core_has_stat _ _ _ SB) in F.
    discriminate. }
  assert (Hblock : forall a_key c0 c1,
             Compare.compare_block btdcoded (PDict c) a_key a_key c0
               = Ok c1 ->
             c1 = c0 \/
             exists a_stat r,
               stat_a btdcoded a_key a_stat /\ uncompared a_stat r /\
               c1 = dict_set ("block_validation_" ++ a_key) r c0).
  { intros a_key c0 c1 S.
    destruct (CompareMetricsFacts.compare_block_inv _ _ _ _ _ _ S)
      as [->|(a & r & SA & -> & [(b & SB & _)|[_ U]])]; [now left | |].
    - pose proof (no_benchmarks_core_has c "block_validation" N) as F.
      rewrite (CompareMetricsFacts.core_has_stat _ _ _ SB) in F.
      discriminate.
    - right. now exists a, r. }
  unfold Compare.compare_common_metrics in H.
  destruct (Compare.compare_one btdcoded (PDict c) "check_transaction"
              _ _ _ _) as [c1|] eqn:S1; cbn [bind] in H; [|discriminate].
  apply Hone in S1. subst c1.
  destruct (Compare.compare_one btdcoded (PDict c) "sha256_1kb" _ _ _ _)
    as [c2|] eqn:S2; cbn [bind] in H; [|discriminate].
  apply Hone in S2. subst c2.
  destruct (py_in "consensus_proof" btdcoded) as [[|]|] eqn:Ecp;
    cbn [bind] in H; [| |discriminate].
  2:{ injection H as <-. split.
      - intros k r; discriminate.
      - intros a_key a_stat _ (cp & A1 & _).
        rewrite (CompareMetricsFacts.py_in_index _ _ _ A1) in Ecp.
        discriminate. }
  cbn [Compare.compare_blocks Compare.block_benchmarks] in H.
  destruct (Compare.compare_block btdcoded (PDict c) "connect_block" _ _)
    as [c3|] eqn:S3; cbn [bind] in H; [|discriminate].
  destruct (Compare.compare_block btdcoded (PDict c)
              "connect_block_multi_tx" _ _)
    as [c4|] eqn:S4; cbn [bind] in H; [|discriminate].
  injection H as <-.
  split.
  - intros k r G.
    destruct (Hblock _ _ _ S4) as [->|(a4 & r4 & SA4 & U4 & ->)];
      [|destruct (dict_get_set_inv _ _ _ _ _ G) as [[-> ->]|[_ G']]].
    + destruct (Hblock _ _ _ S3) as [->|(a3 & r3 & SA3 & U3 & ->)];
        [discriminate|].
      destruct (dict_get_set_inv _ _ _ _ _ G) as [[-> ->]|[_ G']];
        [|discriminate].
      exists "connect_block", a3. cbn. auto.
    + exists "connect_block_multi_tx", a4. cbn. auto.
    + destruct (Hblock _ _ _ S3) as [->|(a3 & r3 & SA3 & U3 & ->)];
        [discriminate|].
      destruct (dict_get_set_inv _ _ _ _ _ G') as [[-> ->]|[_ G'']];
        [|discriminate].
      exists "connect_block", a3. cbn. auto.
  - intros a_key a_stat I SA.
    assert (F : forall key c0 c1 stat,
               stat_a btdcoded key stat ->
               Compare.compare_block btdcoded (PDict c) key key c0
                 = Ok c1 ->
               exists r, uncompared stat r /\
                 c1 = dict_set ("block_validation_" ++ key) r c0).
    { intros key c0 c1 stat (cp & A1 & A2) S.
      unfold Compare.compare_block in S. rewrite A1 in S. cbn [bind] in S.
      rewrite (CompareMetricsFacts.py_in_index _ _ _ A2) in S.
      cbn [bind negb] in S. rewrite A2 in S. cbn [bind] in S.
      rewrite (no_benchmarks_core_has c _ N) in S. cbn [bind] in S.
      destruct (Compare.alone_record stat) as [r|] eqn:R; cbn [bind] in S;
        [|discriminate].
      injection S as <-. exists r. split; [|reflexivity].
      now apply CompareMetricsFacts.alone_record_inv. }
    destruct I as [<-|[<-|[]]].
    + destruct (F _ _ _ _ SA S3) as (r & U & ->).
      exists r. split; [|exact U].
      rewrite (CompareMetricsFacts.compare_block_other _ _ _ _ _ _ _ S4)
        by discriminate.
      apply dict_get_set_same.
    + destruct (F _ _ _ _ SA S4) as (r & U & ->).
      exists r. split; [|exact U]. apply dict_get_set_same.
Qed.

Lemma without_core_only_block_records_witness :
  dict_get "benchmarks" [("error", PStr "Failed to start bitcoind")] = None /\
  Compare.compare_common_metrics (btdcoded_with "connect_block" 2)
    (error_object "Failed to start bitcoind")
  = Ok [("block_validation_connect_block",
         PDict [("btdcoded_ms", PNum 2); ("btdcoded_throughput", PNum 0);
                ("note",
                 PStr "Core benchmark not available for comparison")])] /\
  forall k r,
    dict_get k
      [("block_validation_connect_block",
        PDict [("btdcoded_ms", PNum 2); ("btdcoded_throughput", PNum 0);
               ("note",
                PStr "Core benchmark not available for comparison")])]
    = Some r ->
    exists a_key a_stat,
      In a_key block_variants /\
      k = ("block_validation_" ++ a_key)%string /\
      stat_a (btdcoded_with "connect_block" 2) a_key a_stat /\
      uncompared a_stat r.
Proof.
  split; [reflexivity|]. split; [reflexivity|].
  exact (proj1 (without_core_only_block_records
                  (btdcoded_with "connect_block" 2)
                  [("error", PStr "Failed to start bitcoind")] _
                  eq_refl eq_refl)).
Defined.

(** *** The timing loops *)

Lemma now_inv (env : Env) (w w' : World) (t : Q) :
  now env w = (Ok t, w') ->
  t = perf_counter env (ticks w) /\ ticks w' = S (ticks w).
Proof. unfold now. intros [= <- <-]. auto. Qed.

Lemma rpc_call_ticks (env : Env) (method : string) (w w' : World)
    (r : result pyval) :
  rpc_call env method w = (r, w') -> ticks w' = ticks w.
Proof.
  unfold rpc_call. intros H.
  destruct (cli env (calls w)) as [rc out| |];
    [destruct (rc =? 0)%Z; [destruct (json_loads env out)|]| |];
    injection H as _ <-; reflexivity.
Qed.

Lemma lift_inv {A} (x : result A) (a : A) (w w' : World) :
  lift x w = (Ok a, w') -> x = Ok a /\ w' = w.
Proof. unfold lift. intros [= -> ->]. auto. Qed.

Lemma elapsed_ms_nonneg (s e : Q) : s <= e -> 0 <= elapsed_ms s e.
Proof.
  intros L. unfold elapsed_ms. rewrite Qred_correct.
  apply Qmult_le_0_compat; [|discriminate].
  now apply -> Qle_minus_iff.
Qed.

Lemma collected_refl (env : Env) (n : nat) (times : list Q) :
  collected env n times times.
Proof.
  exists []. split; [now rewrite app_nil_r|]. split; [cbn; lia|].
  constructor.
Qed.

Lemma collected_step (env : Env) (n : nat) (times out : list Q) (b : bool)
    (s e : Q) :
  (monotonic env -> s <= e) ->
  collected env n (if b then times ++ [elapsed_ms s e] else times) out ->
  collected env (S n) times out.
Proof.
  intros L (more & -> & Len & NN). destruct b.
  - exists (elapsed_ms s e :: more). split; [now rewrite <- app_assoc|].
    split; [cbn [length]; lia|].
    intros M. constructor; [apply elapsed_ms_nonneg; auto | auto].
  - exists more. split; [reflexivity|]. split; [lia | exact NN].
Qed.

Lemma block_loop_collected (env : Env) (n : nat) (times out : list Q)
    (w w' : World) :
  block_loop env n times w = (Ok out, w') -> collected env n times out.
Proof.
  revert times w. induction n as [|n IH]; intros times w H;
    cbn [block_loop] in H.
  - apply CoreBenchFacts.ret_inv in H. destruct H as [<- _].
    apply collected_refl.
  - apply CoreBenchFacts.mbind_inv in H. destruct H as (s & w1 & E1 & H).
    apply CoreBenchFacts.mbind_inv in H. destruct H as (r & w2 & E2 & H).
    apply CoreBenchFacts.mbind_inv in H. destruct H as (e & w3 & E3 & H).
    apply now_inv in E1. destruct E1 as [-> T1].
    apply rpc_call_ticks in E2.
    apply now_inv in E3. destruct E3 as [-> T3].
    apply (collected_step env n times out (truthy r)
             (perf_counter env (ticks w)) (perf_counter env (ticks w2))).
    + intros M. rewrite E2, T1. apply M.
    + exact (IH _ _ H).
Qed.

Lemma hash_loop_collected (env : Env) (n : nat) (times out : list Q)
    (w w' : World) :
  hash_loop env n times w = (Ok out, w') -> collected env n times out.
Proof.
  revert times w. induction n as [|n IH]; intros times w H;
    cbn [hash_loop] in H.
  - apply CoreBenchFacts.ret_inv in H. destruct H as [<- _].
    apply collected_refl.
  - apply CoreBenchFacts.mbind_inv in H. destruct H as (s & w1 & E1 & H).
    apply CoreBenchFacts.mbind_inv in H. destruct H as (r & w2 & E2 & H).
    apply CoreBenchFacts.mbind_inv in H. destruct H as (e & w3 & E3 & H).
    apply now_inv in E1. destruct E1 as [-> T1].
    apply rpc_call_ticks in E2.
    apply now_inv in E3. destruct E3 as [-> T3].
    apply (collected_step env n times out (truthy r)
             (perf_counter env (ticks w)) (perf_counter env (ticks w2))).
    + intros M. rewrite E2, T1. apply M.
    + exact (IH _ _ H).
Qed.

Lemma tx_loop_collected (env : Env) (signed_tx : pyval) (n : nat)
    (times out : list Q) (w w' : World) :
  tx_loop env signed_tx n times w = (Ok out, w') ->
  collected env n times out.
Proof.
  revert times w. induction n as [|n IH]; intros times w H;
    cbn [tx_loop] in H.
  - apply CoreBenchFacts.ret_inv in H. destruct H as [<- _].
    apply collected_refl.
  - apply CoreBenchFacts.mbind_inv in H. destruct H as (s & w1 & E1 & H).
    apply CoreBenchFacts.mbind_inv in H. destruct H as (h & w1' & E1' & H).
    apply CoreBenchFacts.mbind_inv in H. destruct H as (r & w2 & E2 & H).
    apply CoreBenchFacts.mbind_inv in H. destruct H as (e & w3 & E3 & H).
    apply CoreBenchFacts.mbind_inv in H. destruct H as (ok & w4 & E4 & H).
    apply now_inv in E1. destruct E1 as [-> T1].
    apply lift_inv in E1'. destruct E1' as [_ ->].
    apply rpc_call_ticks in E2.
    apply now_inv in E3. destruct E3 as [-> T3].
    apply (collected_step env n times out ok
             (perf_counter env (ticks w)) (perf_counter env (ticks w2))).
    + intros M. rewrite E2, T1. apply M.
    + exact (IH _ _ H).
Qed.

Lemma collected_counted (env : Env) (n : nat) (times : list Q)
    (extra : pydict) :
  collected env n [] times ->
  counted_record n (reduce_samples times extra).
Proof.
  intros (more & -> & Len & _). cbn [app].
  destruct more as [|t rest]; [left; now eexists|].
  right. eexists _, (length (t :: rest)).
  split; [reflexivity|]. split; [reflexivity|].
  cbn [length] in *. lia.
Qed.


(** X8.  A workload that returns statistics reports at least one sample
    and at most as many as its loop has turns: 50 for the transaction
    workload, 10 for the block workload, 100 for the hash workload. *)
Theorem samples_are_within_the_repeat_count :
  forall (env : Env) (w w' : World) (r : pyval),
    (benchmark_transaction_validation env w = (Ok r, w') ->
     counted_record 50 r)
    /\
    (benchmark_block_validation env w = (Ok r, w') -> counted_record 10 r)
    /\
    (benchmark_hash_operations env w = (Ok r, w') -> counted_record 100 r).
Proof.
  intros env w w' r. split; [|split]; intros H.
  - destruct (CoreBenchFacts.tx_workload_result _ _ _ _ H)
      as [E|(s & w0 & times & L & ->)]; [now left|].
    exact (collected_counted env _ _ _ (tx_loop_collected _ _ _ _ _ _ _ L)).
  - destruct (CoreBenchFacts.block_workload_result _ _ _ _ H)
      as (w0 & times & L & ->).
    exact (collected_counted env _ _ _ (block_loop_collected _ _ _ _ _ _ L)).
  - destruct (CoreBenchFacts.hash_workload_result _ _ _ _ H)
      as (w0 & times & L & ->).
    exact (collected_counted env _ _ _ (hash_loop_collected _ _ _ _ _ _ L)).
Qed.

Lemma samples_are_within_the_repeat_count_witness :
  benchmark_block_validation no_mining after_tx
  = (Ok (PDict [("mean_ms", PNum 1); ("min_ms", PNum 1);
                ("max_ms", PNum 1); ("samples", PNum 10)]), after_block) /\
  counted_record 10
    (PDict [("mean_ms", PNum 1); ("min_ms", PNum 1);
            ("max_ms", PNum 1); ("samples", PNum 10)]).
Proof.
  assert (B : benchmark_block_validation no_mining after_tx
              = (Ok (PDict [("mean_ms", PNum 1); ("min_ms", PNum 1);
                            ("max_ms", PNum 1); ("samples", PNum 10)]),
                 after_block))
    by (vm_compute; reflexivity).
  split; [exact B|].
  exact (proj1 (proj2 (samples_are_within_the_repeat_count _ _ _ _)) B).
Defined.



(** *** How often the client is run *)

Lemma at_most_weaken {A} (n m : nat) (f : M A) :
  at_most n f -> (n <= m)%nat -> at_most m f.
Proof. intros H L w. specialize (H w). lia. Qed.

Lemma at_most_ret {A} (a : A) : at_most 0 (ret a).
Proof. intros w. cbn. lia. Qed.

Lemma at_most_raise {A} (e : exn) : at_most 0 (@raise A e).
Proof. intros w. cbn. lia. Qed.

Lemma at_most_lift {A} (x : result A) : at_most 0 (lift x).
Proof. intros w. cbn. lia. Qed.

Lemma at_most_emit (e : event) : at_most 0 (emit e).
Proof. intros w. cbn. lia. Qed.

Lemma at_most_set_regtest (b : bool) : at_most 0 (set_regtest b).
Proof. intros w. cbn. lia. Qed.

Lemma at_most_set_daemon (b : bool) : at_most 0 (set_daemon b).
Proof. intros w. cbn. lia. Qed.

Lemma at_most_now (env : Env) : at_most 0 (now env).
Proof. intros w. cbn. lia. Qed.

Lemma at_most_rpc_call (env : Env) (method : string) :
  at_most 1 (rpc_call env method).
Proof.
  intros w. unfold rpc_call.
  destruct (cli env (calls w)) as [rc out| |];
    [destruct (rc =? 0)%Z; [destruct (json_loads env out)|]| |];
    cbn; lia.
Qed.

Lemma at_most_bind {A B} (n m : nat) (c : M A) (k : A -> M B) :
  at_most n c -> (forall a, at_most m (k a)) -> at_most (n + m) (mbind c k).
Proof.
  intros Hc Hk w. unfold mbind. specialize (Hc w).
  destruct (c w) as [[a|e] w1]; cbn [snd] in *.
  - specialize (Hk a w1). lia.
  - lia.
Qed.

Lemma at_most_if {A} (n m : nat) (b : bool) (f g : M A) :
  at_most n f -> at_most m g -> at_most (Nat.max n m) (if b then f else g).
Proof.
  intros Hf Hg. destruct b;
    [apply (at_most_weaken n) | apply (at_most_weaken m)]; auto; lia.
Qed.

Lemma at_most_try_finally {A} (n m : nat) (body : M A) (fin : M unit) :
  at_most n body -> at_most m fin ->
  at_most (n + m) (try_finally body fin).
Proof.
  intros Hb Hf w. unfold try_finally. specialize (Hb w).
  destruct (body w) as [r w1]. cbn [snd] in Hb. specialize (Hf w1).
  destruct (fin w1) as [[u|e] w2]; cbn [snd] in *; lia.
Qed.

Lemma at_most_rmtree : at_most 0 rmtree_if_exists.
Proof.
  intros w. unfold rmtree_if_exists. destruct (regtest_exists w); cbn; lia.
Qed.

(** Bound a run built from the pieces above, leaving the sum to check. *)
Ltac count_calls :=
  repeat match goal with
         | |- at_most _ (ret _) => apply at_most_ret
         | |- at_most _ (raise _) => apply at_most_raise
         | |- at_most _ (lift _) => apply at_most_lift
         | |- at_most _ (emit _) => apply at_most_emit
         | |- at_most _ (set_regtest _) => apply at_most_set_regtest
         | |- at_most _ (set_daemon _) => apply at_most_set_daemon
         | |- at_most _ (now _) => apply at_most_now
         | |- at_most _ (rpc_call _ _) => apply at_most_rpc_call
         | |- at_most _ rmtree_if_exists => apply at_most_rmtree
         | |- at_most _ (mbind _ _) => eapply at_most_bind; [|intros ?]
         | |- at_most _ (if _ then _ else _) => eapply at_most_if
         end.

Lemma at_most_wait_for_rpc (env : Env) (n : nat) :
  at_most n (wait_for_rpc env n).
Proof.
  induction n as [|n IH]; cbn [wait_for_rpc]; [apply at_most_ret|].
  eapply at_most_weaken.
  - count_calls. exact IH.
  - cbn. lia.
Qed.

Lemma at_most_ready_loop (env : Env) (n : nat) :
  at_most n (ready_loop env n).
Proof.
  induction n as [|n IH]; cbn [ready_loop]; [apply at_most_ret|].
  eapply at_most_weaken.
  - count_calls. exact IH.
  - cbn. lia.
Qed.

Lemma at_most_tx_loop (env : Env) (s : pyval) (n : nat) (times : list Q) :
  at_most n (tx_loop env s n times).
Proof.
  revert times. induction n as [|n IH]; intros times; cbn [tx_loop];
    [apply at_most_ret|].
  eapply at_most_weaken.
  - count_calls. apply IH.
  - cbn. lia.
Qed.

Lemma at_most_block_loop (env : Env) (n : nat) (times : list Q) :
  at_most n (block_loop env n times).
Proof.
  revert times. induction n as [|n IH]; intros times; cbn [block_loop];
    [apply at_most_ret|].
  eapply at_most_weaken.
  - count_calls. apply IH.
  - cbn. lia.
Qed.

Lemma at_most_hash_loop (env : Env) (n : nat) (times : list Q) :
  at_most n (hash_loop env n times).
Proof.
  revert times. induction n as [|n IH]; intros times; cbn [hash_loop];
    [apply at_most_ret|].
  eapply at_most_weaken.
  - count_calls. apply IH.
  - cbn. lia.
Qed.

Lemma at_most_tx (env : Env) :
  at_most 56 (benchmark_transaction_validation env).
Proof.
  unfold benchmark_transaction_validation.
  eapply at_most_weaken.
  - count_calls. apply at_most_tx_loop.
  - vm_compute. lia.
Qed.

Lemma at_most_block (env : Env) :
  at_most 11 (benchmark_block_validation env).
Proof.
  unfold benchmark_block_validation.
  eapply at_most_weaken.
  - count_calls. apply at_most_block_loop.
  - vm_compute. lia.
Qed.

Lemma at_most_hash (env : Env) :
  at_most 103 (benchmark_hash_operations env).
Proof.
  unfold benchmark_hash_operations.
  eapply at_most_weaken.
  - count_calls. apply at_most_hash_loop.
  - vm_compute. lia.
Qed.

Lemma at_most_start (env : Env) : at_most 20 (start_bitcoind env).
Proof.
  unfold start_bitcoind.
  destruct (bitcoind_ok env); cbn [negb];
    [|apply (at_most_weaken 0); [apply at_most_ret | lia]].
  destruct (launch env); eapply at_most_weaken.
  - count_calls. apply at_most_wait_for_rpc.
  - vm_compute. lia.
  - count_calls.
  - vm_compute. lia.
  - count_calls.
  - vm_compute. lia.
Qed.

Lemma at_most_cleanup (env : Env) : at_most 0 (cleanup env).
Proof.
  intros w. destruct (CoreBenchFacts.cleanup_returns env w) as (w' & C & _).
  rewrite C. cbn [snd].
  revert C. unfold cleanup, stop_bitcoind, rmtree_if_exists, mbind.
  destruct (cli_ok env); cbn [negb ret]; [destruct (stop env)|];
    destruct w as [c t [|] d tr]; cbn; intros [= <-]; cbn; lia.
Qed.

Lemma at_most_measure_all (env : Env) (timestamp : Q) :
  at_most 180 (measure_all env timestamp).
Proof.
  unfold measure_all.
  eapply at_most_weaken.
  - count_calls;
      [apply at_most_ready_loop | apply at_most_tx | apply at_most_block
      | apply at_most_hash].
  - vm_compute. lia.
Qed.

(** X10.  A run is bounded: whatever the daemon answers, and whether the
    run returns or raises, [rpc_call] is used at most 56 times by the
    transaction workload, 11 times by the block workload, 103 times by
    the hash workload and 200 times by [run_all_benchmarks] as a whole
    (20 polls of the start, 10 of the readiness loop, and the three
    workloads). *)
Theorem client_runs_are_bounded :
  forall env : Env,
    at_most 56 (benchmark_transaction_validation env) /\
    at_most 11 (benchmark_block_validation env) /\
    at_most 103 (benchmark_hash_operations env) /\
    at_most 200 (run_all_benchmarks env).
Proof.
  intros env.
  split; [apply at_most_tx|]. split; [apply at_most_block|].
  split; [apply at_most_hash|].
  unfold run_all_benchmarks.
  eapply at_most_weaken.
  - eapply at_most_bind; [apply at_most_start|]. intros started.
    eapply at_most_if; [apply at_most_ret|].
    eapply at_most_try_finally;
      [apply at_most_measure_all | apply at_most_cleanup].
  - vm_compute. lia.
Qed.

(** *** What the measurements touch *)

Lemma only_polls_ret {A} (a : A) : only_polls (ret a).
Proof. intros w. exists []. cbn. auto. Qed.

Lemma only_polls_lift {A} (x : result A) : only_polls (lift x).
Proof. intros w. exists []. cbn. auto. Qed.

Lemma only_polls_now (env : Env) : only_polls (now env).
Proof. intros w. exists []. cbn. auto. Qed.

Lemma only_polls_sleep : only_polls (emit ESleep).
Proof.
  intros w. exists [ESleep]. cbn. split; [reflexivity|].
  split; [|auto]. constructor; [now left | constructor].
Qed.

Lemma only_polls_rpc_call (env : Env) (method : string) :
  only_polls (rpc_call env method).
Proof.
  intros w. exists [ERpc method]. unfold rpc_call.
  assert (P : Forall polling [ERpc method])
    by (constructor; [right; now eexists | constructor]).
  destruct (cli env (calls w)) as [rc out| |];
    [destruct (rc =? 0)%Z; [destruct (json_loads env out)|]| |];
    cbn; auto.
Qed.

Lemma only_polls_bind {A B} (c : M A) (k : A -> M B) :
  only_polls c -> (forall a, only_polls (k a)) -> only_polls (mbind c k).
Proof.
  intros Hc Hk w. unfold mbind.
  destruct (Hc w) as (p1 & T1 & F1 & R1 & D1).
  destruct (c w) as [[a|e] w1]; cbn [snd] in *.
  - destruct (Hk a w1) as (p2 & T2 & F2 & R2 & D2).
    exists (p2 ++ p1)%list. rewrite T2, T1, R2, R1, D2, D1.
    split; [now rewrite app_assoc|]. split; [|auto].
    apply Forall_app. now split.
  - exists p1. auto.
Qed.

Lemma only_polls_if {A} (b : bool) (f g : M A) :
  only_polls f -> only_polls g -> only_polls (if b then f else g).
Proof. now destruct b. Qed.

Ltac polls_only :=
  repeat match goal with
         | |- only_polls (ret _) => apply only_polls_ret
         | |- only_polls (lift _) => apply only_polls_lift
         | |- only_polls (now _) => apply only_polls_now
         | |- only_polls (emit ESleep) => apply only_polls_sleep
         | |- only_polls (rpc_call _ _) => apply only_polls_rpc_call
         | |- only_polls (mbind _ _) => apply only_polls_bind; [|intros ?]
         | |- only_polls (if _ then _ else _) => apply only_polls_if
         end.

Lemma only_polls_wait_for_rpc (env : Env) (n : nat) :
  only_polls (wait_for_rpc env n).
Proof.
  induction n as [|n IH]; cbn [wait_for_rpc]; polls_only. exact IH.
Qed.

Lemma only_polls_ready_loop (env : Env) (n : nat) :
  only_polls (ready_loop env n).
Proof.
  induction n as [|n IH]; cbn [ready_loop]; polls_only. exact IH.
Qed.

Lemma only_polls_tx_loop (env : Env) (s : pyval) (n : nat)
    (times : list Q) :
  only_polls (tx_loop env s n times).
Proof.
  revert times. induction n as [|n IH]; intros times; cbn [tx_loop];
    polls_only. apply IH.
Qed.

Lemma only_polls_block_loop (env : Env) (n : nat) (times : list Q) :
  only_polls (block_loop env n times).
Proof.
  revert times. induction n as [|n IH]; intros times; cbn [block_loop];
    polls_only. apply IH.
Qed.

Lemma only_polls_hash_loop (env : Env) (n : nat) (times : list Q) :
  only_polls (hash_loop env n times).
Proof.
  revert times. induction n as [|n IH]; intros times; cbn [hash_loop];
    polls_only. apply IH.
Qed.

Lemma only_polls_measure_all (env : Env) (timestamp : Q) :
  only_polls (measure_all env timestamp).
Proof.
  unfold measure_all, benchmark_transaction_validation,
    benchmark_block_validation, benchmark_hash_operations.
  polls_only;
    first [ apply only_polls_ready_loop | apply only_polls_tx_loop
          | apply only_polls_block_loop | apply only_polls_hash_loop ].
Qed.

Lemma start_leaves_directory_and_daemon (env : Env) (w w0 : World) :
  start_bitcoind env w = (Ok true, w0) ->
  regtest_exists w0 = true /\ daemon w0 = true.
Proof.
  unfold start_bitcoind. intros H.
  destruct (bitcoind_ok env); cbn [negb] in H;
    [|apply CoreBenchFacts.ret_inv in H; destruct H; discriminate].
  apply CoreBenchFacts.mbind_inv in H. destruct H as (? & w1 & _ & H).
  apply CoreBenchFacts.mbind_inv in H. destruct H as (? & w2 & _ & H).
  apply CoreBenchFacts.mbind_inv in H. destruct H as (? & w3 & _ & H).
  apply CoreBenchFacts.mbind_inv in H. destruct H as (? & w4 & E4 & H).
  apply CoreBenchFacts.mbind_inv in H. destruct H as (? & w5 & E5 & H).
  unfold set_regtest in E4. injection E4 as _ <-.
  unfold emit in E5. injection E5 as _ <-.
  destruct (launch env).
  - apply CoreBenchFacts.mbind_inv in H. destruct H as (? & w6 & E6 & H).
    unfold set_daemon in E6. injection E6 as _ <-.
    match type of H with
    | wait_for_rpc _ ?n ?w6 = _ =>
        destruct (only_polls_wait_for_rpc env n w6) as (p & _ & _ & R & D)
    end.
    rewrite H in R, D. cbn [snd regtest_exists daemon] in R, D. auto.
  - apply CoreBenchFacts.ret_inv in H. destruct H. discriminate.
  - unfold raise in H. discriminate.
Qed.

Lemma cleanup_of_existing_directory (env : Env) (w : World) :
  regtest_exists w = true ->
  cleanup env w
  = (Ok tt,
     {| calls := calls w; ticks := ticks w; regtest_exists := false;
        daemon := if cli_ok env
                  then match stop env with
                       | Stopped => false
                       | _ => daemon w
                       end
                  else daemon w;
        trace := (ERmtree :: (if cli_ok env then [EStop] else [])
                  ++ trace w)%list |}).
Proof.
  intros R. destruct w as [c t r d tr]. cbn [regtest_exists] in R. subst r.
  unfold cleanup, stop_bitcoind, rmtree_if_exists, mbind.
  destruct (cli_ok env); cbn [negb ret]; [destruct (stop env)|];
    reflexivity.
Qed.

(** X11.  Once [start_bitcoind] has answered [True], the run ends with
    the clean-up and nothing else follows it: between the start and the
    clean-up only client runs and sleeps happen (whether the measurements
    return or raise), then the stop command is run if the client is
    there, then the regtest directory, which is still in place, is
    removed.  The daemon is down at the end if the stop command went
    through. *)
Theorem a_started_run_ends_with_the_cleanup :
  forall (env : Env) (w w0 : World),
    start_bitcoind env w = (Ok true, w0) ->
    exists polls,
      Forall polling polls /\
      trace (snd (run_all_benchmarks env w))
      = (ERmtree :: (if cli_ok env then [EStop] else [])
         ++ polls ++ trace w0)%list /\
      regtest_exists (snd (run_all_benchmarks env w)) = false /\
      daemon (snd (run_all_benchmarks env w))
      = (if cli_ok env
         then match stop env with Stopped => false | _ => true end
         else true).
Proof.
  intros env w w0 S.
  destruct (start_leaves_directory_and_daemon _ _ _ S) as [R0 D0].
  unfold run_all_benchmarks, mbind. rewrite S. cbn [negb].
  unfold try_finally.
  destruct (only_polls_measure_all env (wall_time env) w0)
    as (polls & T & F & R & D).
  destruct (measure_all env (wall_time env) w0) as [r w1].
  cbn [snd] in T, R, D.
  rewrite (cleanup_of_existing_directory env w1) by congruence.
  cbn [snd trace regtest_exists daemon].
  exists polls. rewrite T, D, D0.
  split; [exact F|]. split; [reflexivity|]. split; [reflexivity|].
  destruct (cli_ok env); [destruct (stop env)|]; reflexivity.
Qed.

Lemma a_started_run_ends_with_the_cleanup_witness :
  start_bitcoind odd_wallet fresh
    = (Ok true, snd (start_bitcoind odd_wallet fresh)) /\
  fst (run_all_benchmarks odd_wallet fresh) = Raise TypeError /\
  exists polls,
    Forall polling polls /\
    trace (snd (run_all_benchmarks odd_wallet fresh))
    = (ERmtree :: (if cli_ok odd_wallet then [EStop] else [])
       ++ polls ++ trace (snd (start_bitcoind odd_wallet fresh)))%list /\
    regtest_exists (snd (run_all_benchmarks odd_wallet fresh)) = false /\
    daemon (snd (run_all_benchmarks odd_wallet fresh))
    = (if cli_ok odd_wallet
       then match stop odd_wallet with Stopped => false | _ => true end
       else true).
Proof.
  assert (S : start_bitcoind odd_wallet fresh
              = (Ok true, snd (start_bitcoind odd_wallet fresh)))
    by (vm_compute; reflexivity).
  split; [exact S|]. split; [vm_compute; reflexivity|].
  exact (a_started_run_ends_with_the_cleanup odd_wallet fresh _ S).
Defined.

(** *** The command *)

(** X12.  The exit status of the benchmark command only tells whether
    the daemon came up: it is 1 exactly when the results are the error
    object of a failed start or of a daemon that stopped answering, and 0
    whenever the three workloads were run, whatever they returned (error
    objects included); the results written are those of
    [run_all_benchmarks]. *)
Theorem exit_status_only_reflects_the_start :
  forall (env : Env) (w w' : World) (results : pyval) (status : Z),
    CoreMain.main env w = (Ok (results, status), w') ->
    run_all_benchmarks env w = (Ok results, w') /\
    ((status = 1%Z /\
      (results = error_object "Failed to start bitcoind" \/
       results = error_object "bitcoind not responding after start"))
     \/
     (status = 0%Z /\
      exists tx block hash,
        results
        = PDict [("timestamp", PNum (wall_time env));
                 ("system", PStr "Bitcoin Core");
                 ("benchmarks",
                  PDict [("transaction_validation", tx);
                         ("block_validation", block);
                         ("hash_operations", hash)])] /\
        workload_record [] tx /\ workload_record [] block /\
        workload_record proxy_note hash)).
Proof.
  intros env w w' results status H. unfold CoreMain.main in H.
  apply CoreBenchFacts.mbind_inv in H. destruct H as (r & w1 & R & H).
  apply CoreBenchFacts.mbind_inv in H. destruct H as (b & w2 & E & H).
  apply lift_inv in E. destruct E as [E ->].
  apply CoreBenchFacts.ret_inv in H. destruct H as [[= -> <-] <-].
  split; [exact R|].
  destruct (run_all_benchmarks_result _ _ _ _ R)
    as [->|[->|(tx & block & hash & -> & T & B & X)]];
    cbn in E; injection E as <-.
  - left. auto.
  - left. auto.
  - right. split; [reflexivity|]. now exists tx, block, hash.
Qed.

Lemma exit_status_only_reflects_the_start_witness :
  CoreMain.main no_mining fresh
    = (Ok (no_mining_document, 0%Z), snd (CoreMain.main no_mining fresh)) /\
  dict_get "transaction_validation"
    (match no_mining_document with
     | PDict d => match dict_get "benchmarks" d with
                  | Some (PDict b) => b
                  | _ => []
                  end
     | _ => []
     end)
  = Some (error_object "Failed to generate blocks") /\
  run_all_benchmarks no_mining fresh
    = (Ok no_mining_document, snd (CoreMain.main no_mining fresh)).
Proof.
  assert (M : CoreMain.main no_mining fresh
              = (Ok (no_mining_document, 0%Z),
                 snd (CoreMain.main no_mining fresh)))
    by (vm_compute; reflexivity).
  split; [exact M|]. split; [vm_compute; reflexivity|].
  exact (proj1 (exit_status_only_reflects_the_start _ _ _ _ _ M)).
Defined.

(** *** What the comparison reads *)

(** X13.  The comparison only reads the [consensus_proof] section of
    System A: two sets of loaded sections with the same [consensus_proof]
    (say, with and without [reference_node]) give the same comparison, or
    the same exception, against any Core document. *)
Theorem only_consensus_proof_is_compared :
  forall (a b : pydict) (core : pyval),
    dict_get "consensus_proof" a = dict_get "consensus_proof" b ->
    Compare.compare_common_metrics (PDict a) core
    = Compare.compare_common_metrics (PDict b) core.
Proof.
  intros a b core H.
  unfold Compare.compare_common_metrics, Compare.compare_one,
    Compare.compare_blocks, Compare.compare_block, Compare.btdcoded_has,
    Compare.and_then, Compare.block_benchmarks.
  cbn [py_in py_index]. unfold dict_has. now rewrite H.
Qed.

Lemma only_consensus_proof_is_compared_witness :
  dict_get "consensus_proof"
    [("consensus_proof",
      PDict [("check_transaction", PDict [("mean_ms", PNum 2)])])]
  = dict_get "consensus_proof"
      [("reference_node",
        PDict [("check_transaction", PDict [("mean_ms", PNum 9)])]);
       ("consensus_proof",
        PDict [("check_transaction", PDict [("mean_ms", PNum 2)])])] /\
  Compare.compare_common_metrics
    (PDict [("reference_node",
             PDict [("check_transaction", PDict [("mean_ms", PNum 9)])]);
            ("consensus_proof",
             PDict [("check_transaction", PDict [("mean_ms", PNum 2)])])])
    (core_with "transaction_validation" 4)
  = Ok [("transaction_validation",
         PDict [("btdcoded_ms", PNum 2); ("core_ms", PNum 4);
                ("ratio", PNum 2); ("faster", PStr "BTCDecoded");
                ("btdcoded_throughput", PNum 0)])].
Proof.
  split; [reflexivity|].
  etransitivity;
    [ symmetry;
      apply (only_consensus_proof_is_compared
               [("consensus_proof",
                 PDict [("check_transaction",
                         PDict [("mean_ms", PNum 2)])])]);
      reflexivity
    | reflexivity ].
Defined.

(** *** The start of the daemon *)

(** X14.  [start_bitcoind] does nothing at all when [bitcoind] is not
    executable.  Otherwise it always leaves a regtest directory in place,
    made anew: an old one is removed before it is created, and only then
    is the daemon launched; after the launch it only polls, and the
    daemon is marked as running exactly when the launch went through. *)
Theorem start_makes_a_fresh_directory :
  forall (env : Env) (w : World),
    (bitcoind_ok env = false -> start_bitcoind env w = (Ok false, w))
    /\
    (bitcoind_ok env = true ->
     exists polls,
       Forall polling polls /\
       trace (snd (start_bitcoind env w))
       = (polls ++ ELaunch :: EMkdirRegtest
          :: (if regtest_exists w then [ERmtree] else [])
          ++ EMkdirData :: trace w)%list /\
       regtest_exists (snd (start_bitcoind env w)) = true /\
       daemon (snd (start_bitcoind env w))
       = match launch env with Launched => true | _ => daemon w end).
Proof.
  intros env w. unfold start_bitcoind. split; intros B; rewrite B;
    cbn [negb]; [reflexivity|].
  unfold rmtree_if_exists. destruct w as [c t r d tr].
  destruct (launch env);
    destruct r; unfold mbind, emit, set_regtest, set_daemon, ret, raise;
    cbn [regtest_exists calls ticks daemon trace snd].
  1,2: match goal with |- context [wait_for_rpc ?e ?n ?w1] =>
         destruct (only_polls_wait_for_rpc e n w1)
           as (p & T & F & R & D);
         destruct (wait_for_rpc e n w1) as [[b|x] w2]
       end;
       cbn [snd regtest_exists daemon trace] in *;
       exists p; rewrite T, R, D; auto.
  all: exists []; cbn; auto.
Qed.

Lemma start_makes_a_fresh_directory_witness :
  bitcoind_ok silent = true /\
  exists polls,
    Forall polling polls /\
    trace (snd (start_bitcoind silent (at_call 0)))
    = (polls ++ ELaunch :: EMkdirRegtest
       :: (if regtest_exists (at_call 0) then [ERmtree] else [])
       ++ EMkdirData :: trace (at_call 0))%list /\
    regtest_exists (snd (start_bitcoind silent (at_call 0))) = true /\
    daemon (snd (start_bitcoind silent (at_call 0)))
    = match launch silent with Launched => true | _ => daemon (at_call 0) end.
Proof.
  split; [reflexivity|].
  exact (proj2 (start_makes_a_fresh_directory silent (at_call 0)) eq_refl).
Defined.
